(** * wisecow: the access-log analyzer ([scripts/log_analyzer.py])

    A shallow embedding of the [LogAnalyzer] class and the properties its
    specification states about it.

    Modelling choices.
    - Text is [string]; the character classes, [lower], [strip] and [split]
      are those of Python on ASCII code points, the alphabet of the Combined
      Log Format.  A code point above 127 is treated as an ordinary symbol:
      not a space, not a digit, not a word character, left alone by [lower].
    - A [Counter] is a dict: an association list in insertion order, because
      the scanner iterates over the keys and the order of its output follows
      that order.
    - [re] patterns are values of [regex], run by a backtracking matcher that
      tries greedy repetitions longest first and alternatives left to right,
      as [re.match] does.
    - The object's mutable [stats] is threaded explicitly: each method takes
      the statistics and returns the new ones.
    - What the program prints is a value: a list of findings, a report. *)

From Stdlib Require Import String Ascii List Arith Bool Lia QArith Permutation Sorted.
Import ListNotations.

#[local] Open Scope string_scope.
#[local] Open Scope list_scope.
#[local] Open Scope nat_scope.

#[local] Set Warnings "-abstract-large-number".

(** ** Python's string primitives *)

Module Py.

Definition code (c : ascii) : nat := nat_of_ascii c.

Definition between (lo hi : nat) (c : ascii) : bool :=
  (lo <=? code c) && (code c <=? hi).

(** [str.isspace] on one character: TAB, LF, VT, FF, CR, FS, GS, RS, US and
    the space. *)
Definition isspace (c : ascii) : bool :=
  between 9 13 c || between 28 32 c.

(** [\d] *)
Definition isdigit (c : ascii) : bool := between 48 57 c.

Definition isupper (c : ascii) : bool := between 65 90 c.
Definition islower (c : ascii) : bool := between 97 122 c.

(** [\w] *)
Definition isword (c : ascii) : bool :=
  isdigit c || isupper c || islower c || (code c =? 95).

Definition lower_char (c : ascii) : ascii :=
  if isupper c then ascii_of_nat (code c + 32) else c.

(** [s.lower()] *)
Fixpoint lower (s : string) : string :=
  match s with
  | EmptyString => EmptyString
  | String c s' => String (lower_char c) (lower s')
  end.

(** [p in s] *)
Fixpoint contains (p s : string) : bool :=
  prefix p s ||
  match s with
  | EmptyString => false
  | String _ s' => contains p s'
  end.

Fixpoint lstrip (s : string) : string :=
  match s with
  | EmptyString => EmptyString
  | String c s' => if isspace c then lstrip s' else s
  end.

Fixpoint rstrip (s : string) : string :=
  match s with
  | EmptyString => EmptyString
  | String c s' =>
      match rstrip s' with
      | EmptyString => if isspace c then EmptyString else String c EmptyString
      | r => String c r
      end
  end.

(** [s.strip()] *)
Definition strip (s : string) : string := rstrip (lstrip s).

(** [s.split()]: the maximal runs of non-space characters. *)
Fixpoint split (s : string) : list string :=
  match s with
  | EmptyString => []
  | String c s' =>
      if isspace c then split s'
      else
        match s' with
        | EmptyString => [String c EmptyString]
        | String c' _ =>
            if isspace c' then String c EmptyString :: split s'
            else
              match split s' with
              | t :: ts => String c t :: ts
              | [] => [String c EmptyString]
              end
        end
  end.

(** [int(s)] for a run of decimal digits (a leading space is skipped, as
    [int] does). *)
Fixpoint int_acc (acc : nat) (s : string) : nat :=
  match s with
  | EmptyString => acc
  | String c s' =>
      if isdigit c then int_acc (10 * acc + (code c - 48)) s'
      else int_acc acc s'
  end.

Definition int (s : string) : nat := int_acc 0 s.

Definition digit_char (n : nat) : ascii := ascii_of_nat (48 + n mod 10).

(** [%02d] for a number below 100. *)
Definition pad2 (n : nat) : string :=
  String (digit_char (n / 10)) (String (digit_char n) EmptyString).

End Py.

(** ** Regular expressions, as much of [re] as the program uses *)

Module Re.

Inductive regex : Type :=
| Eps
| Lit (s : string)                       (* literal text *)
| LitI (s : string)                      (* literal text under IGNORECASE; [s] lower case *)
| Cls (p : ascii -> bool)                (* one character of a class *)
| Rep (p : ascii -> bool) (lo : nat)     (* greedy [p{lo,}]: [p*] is [Rep p 0], [p+] is [Rep p 1] *)
| Alt (r1 r2 : regex)                    (* [r1|r2] *)
| Cat (r1 r2 : regex)
| Grp (name : string) (r : regex)        (* [(?P<name>r)] *)
| Eol.                                   (* [$] *)

Definition groups := list (string * string).

Fixpoint strip_prefix (p s : string) : option string :=
  match p, s with
  | EmptyString, _ => Some s
  | String a p', String b s' =>
      if Ascii.eqb a b then strip_prefix p' s' else None
  | String _ _, EmptyString => None
  end.

Fixpoint strip_prefix_i (p s : string) : option string :=
  match p, s with
  | EmptyString, _ => Some s
  | String a p', String b s' =>
      if Ascii.eqb a (Py.lower_char b) then strip_prefix_i p' s' else None
  | String _ _, EmptyString => None
  end.

Fixpoint take (n : nat) (s : string) : string :=
  match n, s with
  | S n', String c s' => String c (take n' s')
  | _, _ => EmptyString
  end.

Section Matcher.
Variable A : Type.

(** Greedy repetition of a class, at least [lo] times: the longest run
    first, then shorter ones while the continuation fails. *)
Fixpoint rep (p : ascii -> bool) (lo : nat) (s : string)
         (k : string -> option A) : option A :=
  let stop := if lo =? 0 then k s else None in
  match s with
  | EmptyString => stop
  | String c s' =>
      if p c then
        match rep p (pred lo) s' k with
        | Some x => Some x
        | None => stop
        end
      else stop
  end.

(** [run r s g k]: match [r] at the start of [s], then hand the rest of
    the text and the groups captured so far to [k]; backtrack into [r]
    when [k] fails. *)
Fixpoint run (r : regex) (s : string) (g : groups)
         (k : string -> groups -> option A) : option A :=
  match r with
  | Eps => k s g
  | Lit l =>
      match strip_prefix l s with
      | Some s' => k s' g
      | None => None
      end
  | LitI l =>
      match strip_prefix_i l s with
      | Some s' => k s' g
      | None => None
      end
  | Cls p =>
      match s with
      | String c s' => if p c then k s' g else None
      | EmptyString => None
      end
  | Rep p lo => rep p lo s (fun s' => k s' g)
  | Alt r1 r2 =>
      match run r1 s g k with
      | Some x => Some x
      | None => run r2 s g k
      end
  | Cat r1 r2 => run r1 s g (fun s' g' => run r2 s' g' k)
  | Grp name r1 =>
      run r1 s g
          (fun s' g' =>
             k s' ((name, take (String.length s - String.length s') s) :: g'))
  | Eol =>
      match s with
      | EmptyString => k s g
      | String c EmptyString => if Ascii.eqb c "010"%char then k s g else None
      | _ => None
      end
  end.
End Matcher.

(** [re.match(r, s)]: anchored at the start, not at the end.  The result
    carries the captured groups and the text left after the match. *)
Definition rmatch (r : regex) (s : string) : option (groups * string) :=
  run _ r s [] (fun s' g => Some (g, s')).

Definition matches (r : regex) (s : string) : bool :=
  match rmatch r s with Some _ => true | None => false end.

Fixpoint seq (rs : list regex) : regex :=
  match rs with
  | [] => Eps
  | [r] => r
  | r :: rs' => Cat r (seq rs')
  end.

Fixpoint alts (r : regex) (rs : list regex) : regex :=
  match rs with
  | [] => r
  | r' :: rs' => Alt r (alts r' rs')
  end.

(** [m.group(name)] *)
Fixpoint group (name : string) (g : groups) : string :=
  match g with
  | [] => EmptyString
  | (n, v) :: g' => if String.eqb n name then v else group name g'
  end.

Definition notchr (c : ascii) : ascii -> bool := fun x => negb (Ascii.eqb c x).
Definition nonspace : ascii -> bool := fun x => negb (Py.isspace x).

End Re.

(** ** [collections.Counter] *)

Module Counter.

(** The keys in the order in which they were first counted, each with its
    count. *)
Definition t := list (string * nat).

Definition empty : t := [].

(** [c[k]], which is 0 for a key that was never counted. *)
Fixpoint get (k : string) (c : t) : nat :=
  match c with
  | [] => 0
  | (k', n) :: c' => if String.eqb k k' then n else get k c'
  end.

(** [c[k] += 1]: a new key goes to the end, a known one keeps its place. *)
Fixpoint incr (k : string) (c : t) : t :=
  match c with
  | [] => [(k, 1)]
  | (k', n) :: c' =>
      if String.eqb k k' then (k', S n) :: c' else (k', n) :: incr k c'
  end.

(** Iterating over the counter gives its keys. *)
Definition keys (c : t) : list string := map fst c.

(** [sum(c.values())] *)
Definition total (c : t) : nat := list_sum (map snd c).

(** Insertion of a pair into a list sorted by descending count, after the
    pairs of the same count: the stable order of [most_common]. *)
Fixpoint insert_desc (x : string * nat) (l : t) : t :=
  match l with
  | [] => [x]
  | y :: l' => if snd y <? snd x then x :: l else y :: insert_desc x l'
  end.

(** [c.most_common()] *)
Definition most_common (c : t) : t :=
  fold_left (fun acc x => insert_desc x acc) c [].

(** [c.most_common(n)] *)
Definition most_common_n (n : nat) (c : t) : t := firstn n (most_common c).

End Counter.

(** ** The analyzer *)

Import Re.

(** [self.stats] *)
Record Stats := mkStats {
  total_requests : nat;
  status_codes : Counter.t;
  top_pages : Counter.t;
  top_ips : Counter.t;
  hourly_activity : Counter.t;
  user_agents : Counter.t;
  referrers : Counter.t
}.

(** The statistics [__init__] builds. *)
Definition init_stats : Stats :=
  mkStats 0 Counter.empty Counter.empty Counter.empty Counter.empty
          Counter.empty Counter.empty.

Definition dquote : ascii := "034"%char.
Definition dq : string := String dquote EmptyString.

(** [[\w/\.]] *)
Definition protocol_char (c : ascii) : bool :=
  Py.isword c || Ascii.eqb c "/"%char || Ascii.eqb c "."%char.

(** [self.log_pattern]: the groups [ip] (\S+), [timestamp] (one or more
    characters other than the closing bracket), [method] (\w+), [url] (\S+),
    [protocol] (one or more of \w, slash and dot), [status] and [size] (\d+),
    [referrer] and [user_agent] (any run without a double quote), between
    the literal texts of the Combined Log Format. *)
Definition log_pattern : regex :=
  seq [ Grp "ip" (Rep nonspace 1); Lit " - - [";
        Grp "timestamp" (Rep (notchr "]"%char) 1); Lit "] "; Lit dq;
        Grp "method" (Rep Py.isword 1); Lit " ";
        Grp "url" (Rep nonspace 1); Lit " ";
        Grp "protocol" (Rep protocol_char 1); Lit dq; Lit " ";
        Grp "status" (Rep Py.isdigit 1); Lit " ";
        Grp "size" (Rep Py.isdigit 1); Lit " "; Lit dq;
        Grp "referrer" (Rep (notchr dquote) 0); Lit dq; Lit " "; Lit dq;
        Grp "user_agent" (Rep (notchr dquote) 0); Lit dq ].

(** [match.groupdict()] of [log_pattern] *)
Record Entry := mkEntry {
  ip : string;
  timestamp : string;
  method : string;
  url : string;
  protocol : string;
  status : string;
  size : string;
  referrer : string;
  user_agent : string
}.

Definition groupdict (g : groups) : Entry :=
  mkEntry (group "ip" g) (group "timestamp" g) (group "method" g)
          (group "url" g) (group "protocol" g) (group "status" g)
          (group "size" g) (group "referrer" g) (group "user_agent" g).

(** *** [datetime.strptime(_, '%d/%b/%Y:%H:%M:%S')] and [strftime('%H:00')] *)

Module Datetime.

Record t := mk {
  year : nat; month : nat; day : nat;
  hour : nat; minute : nat; second : nat
}.

Definition digit_in (lo hi : nat) : regex :=
  Cls (Py.between (48 + lo) (48 + hi)).
Definition digit : regex := Cls Py.isdigit.

(** The directives, as [_strptime] spells them. *)
Definition re_d : regex :=
  alts (Cat (Lit "3") (digit_in 0 1))
       [Cat (digit_in 1 2) digit; Cat (Lit "0") (digit_in 1 9);
        digit_in 1 9; Cat (Lit " ") (digit_in 1 9)].

Definition month_abbr : list string :=
  ["jan"; "feb"; "mar"; "apr"; "may"; "jun";
   "jul"; "aug"; "sep"; "oct"; "nov"; "dec"].

Definition re_b : regex := alts (LitI "jan") (map LitI (tl month_abbr)).

Definition re_Y : regex := seq [digit; digit; digit; digit].

Definition re_H : regex :=
  alts (Cat (Lit "2") (digit_in 0 3)) [Cat (digit_in 0 1) digit; digit].

Definition re_M : regex := alts (Cat (digit_in 0 5) digit) [digit].

Definition re_S : regex :=
  alts (Cat (Lit "6") (digit_in 0 1)) [Cat (digit_in 0 5) digit; digit].

(** The pattern of the format [%d/%b/%Y:%H:%M:%S]. *)
Definition format_regex : regex :=
  seq [ Grp "d" re_d; Lit "/"; Grp "b" re_b; Lit "/"; Grp "Y" re_Y; Lit ":";
        Grp "H" re_H; Lit ":"; Grp "M" re_M; Lit ":"; Grp "S" re_S ].

Fixpoint index_of (x : string) (l : list string) : nat :=
  match l with
  | [] => 0
  | y :: l' => if String.eqb x y then 0 else S (index_of x l')
  end.

Definition is_leap (y : nat) : bool :=
  ((y mod 4 =? 0) && negb (y mod 100 =? 0)) || (y mod 400 =? 0).

Definition days_in_month (y m : nat) : nat :=
  match m with
  | 2 => if is_leap y then 29 else 28
  | 4 | 6 | 9 | 11 => 30
  | _ => 31
  end.

(** What the [datetime] constructor accepts. *)
Definition valid (d : t) : bool :=
  (1 <=? year d) && (year d <=? 9999) &&
  (1 <=? month d) && (month d <=? 12) &&
  (1 <=? day d) && (day d <=? days_in_month (year d) (month d)) &&
  (hour d <=? 23) && (minute d <=? 59) && (second d <=? 59).

(** [None] stands for the [ValueError]: the text does not match the format,
    text is left over after the match, or the fields are not a date. *)
Definition strptime (s : string) : option t :=
  match rmatch format_regex s with
  | Some (g, EmptyString) =>
      let d := mk (Py.int (group "Y" g))
                  (S (index_of (Py.lower (group "b" g)) month_abbr))
                  (Py.int (group "d" g)) (Py.int (group "H" g))
                  (Py.int (group "M" g)) (Py.int (group "S" g)) in
      if valid d then Some d else None
  | _ => None
  end.

(** [dt.strftime('%H:00')] *)
Definition strftime_hour (d : t) : string := Py.pad2 (hour d) ++ ":00".

End Datetime.

(** The [try] block of [_process_log_entry]: the hour bucket of a timestamp,
    or [None] when [split()[0]] or [strptime] raises. *)
Definition hour_of (ts : string) : option string :=
  match Py.split ts with
  | [] => None
  | timestamp_str :: _ =>
      match Datetime.strptime timestamp_str with
      | Some dt => Some (Datetime.strftime_hour dt)
      | None => None
      end
  end.

(** The browser name [_process_log_entry] extracts from a user agent. *)
Definition browser (user_agent : string) : string :=
  let ua := Py.lower user_agent in
  if Py.contains "chrome" ua then "Chrome"
  else if Py.contains "firefox" ua then "Firefox"
  else if Py.contains "safari" ua && negb (Py.contains "chrome" ua) then "Safari"
  else if Py.contains "edge" ua then "Edge"
  else if Py.contains "bot" ua || Py.contains "crawler" ua then "Bot/Crawler"
  else "Other".

(** Python's truth of a string that is also not the [-] sentinel. *)
Definition present (s : string) : bool :=
  negb (String.eqb s "") && negb (String.eqb s "-").

Definition _process_log_entry (entry : Entry) (st : Stats) : Stats :=
  mkStats
    (total_requests st + 1)
    (Counter.incr (status entry) (status_codes st))
    (Counter.incr (url entry) (top_pages st))
    (Counter.incr (ip entry) (top_ips st))
    (match hour_of (timestamp entry) with
     | Some hour => Counter.incr hour (hourly_activity st)
     | None => hourly_activity st
     end)
    (if present (user_agent entry)
     then Counter.incr (browser (user_agent entry)) (user_agents st)
     else user_agents st)
    (if present (referrer entry)
     then Counter.incr (referrer entry) (referrers st)
     else referrers st).

(** [\d+\.\d+\.\d+\.\d+] *)
Definition ipv4_pattern : regex :=
  seq [ Rep Py.isdigit 1; Lit "."; Rep Py.isdigit 1; Lit ".";
        Rep Py.isdigit 1; Lit "."; Rep Py.isdigit 1 ].

(** [^\d{3}$] ([re.match] already anchors at the start) *)
Definition status_pattern : regex :=
  seq [ Cls Py.isdigit; Cls Py.isdigit; Cls Py.isdigit; Eol ].

Definition looks_like_url (part : string) : bool :=
  Py.contains "/" part && negb (Py.contains "HTTP" part).

(** A [for part in parts: if test(part): c[part] += 1; break] loop. *)
Definition count_first (test : string -> bool) (parts : list string)
           (c : Counter.t) : Counter.t :=
  match find test parts with
  | Some part => Counter.incr part c
  | None => c
  end.

Definition _parse_fallback (line : string) (st : Stats) : Stats :=
  let parts := Py.split line in
  if 7 <=? length parts then
    mkStats
      (total_requests st + 1)
      (count_first (matches status_pattern) parts (status_codes st))
      (count_first looks_like_url parts (top_pages st))
      (count_first (matches ipv4_pattern) parts (top_ips st))
      (hourly_activity st)
      (user_agents st)
      (referrers st)
  else st.

(** The body of the loop of [parse_log_file], for one line of the file. *)
Definition ingest_line (st : Stats) (raw : string) : Stats :=
  let line := Py.strip raw in
  if String.eqb line "" then st
  else
    match rmatch log_pattern line with
    | Some (g, _) => _process_log_entry (groupdict g) st
    | None => _parse_fallback line st
    end.

Definition ingest_lines (st : Stats) (lines : list string) : Stats :=
  fold_left ingest_line lines st.

Definition LF : ascii := "010"%char.
Definition CR : ascii := "013"%char.

(** The lines a text-mode file yields: each ends where a newline (LF, CR or
    CR LF, all read as LF) ends it, the last one maybe without. *)
Fixpoint readlines (s : string) : list string :=
  match s with
  | EmptyString => []
  | String c s' =>
      if Ascii.eqb c LF then String LF EmptyString :: readlines s'
      else if Ascii.eqb c CR then
        match s' with
        | String c' s'' =>
            if Ascii.eqb c' LF then String LF EmptyString :: readlines s''
            else String LF EmptyString :: readlines s'
        | EmptyString => [String LF EmptyString]
        end
      else
        match readlines s' with
        | l :: ls => String c l :: ls
        | [] => [String c EmptyString]
        end
  end.

(** What [self.log_file] names: nothing, something [open] refuses, or a
    file with its text. *)
Inductive source : Type :=
| NotFound
| OpenFails
| File (content : string).

(** [parse_log_file]: the boolean it returns and the statistics it leaves. *)
Definition parse_log_file (src : source) (st : Stats) : bool * Stats :=
  match src with
  | NotFound => (false, st)
  | OpenFails => (false, st)
  | File content => (true, ingest_lines st (readlines content))
  end.

(** *** Security checks *)

(** One warning line of [_check_security_issues]. *)
Inductive finding : Type :=
| SuspiciousAgent (ua : string)
| Attack (pattern_name url : string).

Definition suspicious_agents : list string :=
  ["sqlmap"; "nikto"; "metasploit"; "nmap"; "havij"].

Definition attack_patterns : list (string * list string) :=
  [ ("SQL Injection", ["union select"; "or 1=1"; "drop table"; "insert into"]);
    ("XSS", ["<script>"; "javascript:"; "onload="; "onerror="]);
    ("Path Traversal", ["../"; "..\"; "/etc/passwd"]);
    ("Command Injection", [";ls"; "|cat"; "`id`"; "$(whoami)"]) ].

(** The first loop: every agent against every key of [stats['user_agents']]. *)
Definition check_agents (agents : Counter.t) : list finding :=
  flat_map (fun agent =>
    flat_map (fun ua =>
      if Py.contains agent (Py.lower ua) then [SuspiciousAgent ua] else [])
      (Counter.keys agents))
    suspicious_agents.

(** The inner loop of the second one: the patterns of one category against
    one URL. *)
Definition check_url (pattern_name : string) (patterns : list string)
           (url : string) : list finding :=
  let url_lower := Py.lower url in
  flat_map (fun pattern =>
    if Py.contains pattern url_lower then [Attack pattern_name url] else [])
    patterns.

Definition check_attacks (table : list (string * list string))
           (pages : Counter.t) : list finding :=
  flat_map (fun cat =>
    flat_map (check_url (fst cat) (snd cat)) (Counter.keys pages))
    table.

Definition _check_security_issues (st : Stats) : list finding :=
  check_agents (user_agents st) ++ check_attacks attack_patterns (top_pages st).

(** *** The report *)

(** [_get_status_name] *)
Definition status_names : list (string * string) :=
  [ ("200", "OK"); ("301", "Moved Permanently"); ("302", "Found");
    ("304", "Not Modified"); ("400", "Bad Request"); ("401", "Unauthorized");
    ("403", "Forbidden"); ("404", "Not Found");
    ("500", "Internal Server Error"); ("502", "Bad Gateway");
    ("503", "Service Unavailable") ].

Fixpoint _get_status_name_in (names : list (string * string)) (code : string)
  : string :=
  match names with
  | [] => "Unknown"
  | (c, name) :: names' =>
      if String.eqb code c then name else _get_status_name_in names' code
  end.

Definition _get_status_name : string -> string :=
  _get_status_name_in status_names.

(** A computation that may raise: [None] is the exception. *)
Definition bind {A B : Type} (m : option A) (f : A -> option B) : option B :=
  match m with
  | Some a => f a
  | None => None
  end.

Notation "x <- m ;; k" := (bind m (fun x => k))
  (at level 61, m at next level, right associativity).

(** [(count / total) * 100].  The quotient is the rational the float
    approximates; a zero divisor raises [ZeroDivisionError].  The value
    stands for the double the program prints and no property below is about
    it: they are about when the division raises and about the integer counts
    it is applied to. *)
Definition percentage (count total : nat) : option Q :=
  match total with
  | 0 => None
  | S _ => Some (Qmake (Z.of_nat (100 * count)) (Pos.of_nat total))
  end.

(** One line of a distribution: the key, its count, its share. *)
Definition row : Type := string * nat * Q.

(** A [for key, count in ...: percentage = ...; print(...)] loop. *)
Fixpoint rows (total : nat) (l : Counter.t) : option (list row) :=
  match l with
  | [] => Some []
  | (key, count) :: l' =>
      pct <- percentage count total ;;
      rest <- rows total l' ;;
      Some ((key, count, pct) :: rest)
  end.

Definition page_extensions : list string :=
  [".php"; ".html"; ".js"; ".css"; ".jpg"; ".png"].

(** The section on 404 errors: the count and the pages listed under it. *)
Definition not_found_section (st : Stats) : option (nat * Counter.t) :=
  let not_found_count := Counter.get "404" (status_codes st) in
  if 0 <? not_found_count then
    Some (not_found_count,
          filter (fun p => existsb (fun ext => Py.contains ext (fst p))
                                   page_extensions)
                 (Counter.most_common_n 10 (top_pages st)))
  else None.

Record Report := mkReport {
  basic_total : nat;
  status_distribution : list (row * string);
  not_found : option (nat * Counter.t);
  requested_pages : list row;
  ip_addresses : list row;
  hourly : list row;
  browsers : list row;
  security : list finding
}.

(** What [generate_report] prints. *)
Inductive output : Type :=
| NoValidEntries
| Printed (r : Report).

Definition generate_report (st : Stats) : option output :=
  if total_requests st =? 0 then Some NoValidEntries
  else
    let total := total_requests st in
    codes <- rows total (Counter.most_common (status_codes st)) ;;
    pages <- rows total (Counter.most_common_n 10 (top_pages st)) ;;
    ips <- rows total (Counter.most_common_n 10 (top_ips st)) ;;
    hours <- rows total (Counter.most_common_n 24 (hourly_activity st)) ;;
    agents <- rows total (Counter.most_common (user_agents st)) ;;
    Some (Printed
            (mkReport total
                      (map (fun r => (r, _get_status_name (fst (fst r)))) codes)
                      (not_found_section st)
                      pages ips hours agents
                      (_check_security_issues st))).

(** A run of [main] on a log file: [parse_log_file], then, when it
    succeeded, [generate_report]. *)
Inductive outcome : Type :=
| SourceUnavailable
| Raised
| Reported (o : output).

Definition analyze (src : source) : outcome :=
  match parse_log_file src init_stats with
  | (false, _) => SourceUnavailable
  | (true, st) =>
      match generate_report st with
      | Some o => Reported o
      | None => Raised
      end
  end.

(** *** The sample log of [create_sample_log] *)

Definition nl : string := String LF EmptyString.

(** One line of the sample: the text before the request, the request, the
    text between it and the referrer, the referrer and the user agent, each
    of the last four between double quotes in the file. *)
Definition sample_line (pre req mid ref ua : string) : string :=
  pre ++ dq ++ req ++ dq ++ mid ++ dq ++ ref ++ dq ++ " " ++ dq ++ ua ++ dq ++ nl.

Definition sample_log : string :=
  String.concat ""
    [ sample_line "192.168.1.100 - - [25/Dec/2023:10:15:32 +0000] "
        "GET /index.html HTTP/1.1"
        " 200 1524 " "https://example.com"
        "Mozilla/5.0 (Windows NT 10.0; Win64; x64) AppleWebKit/537.36";
      sample_line "192.168.1.101 - - [25/Dec/2023:10:15:33 +0000] "
        "GET /about.html HTTP/1.1"
        " 200 2341 " "https://example.com"
        "Mozilla/5.0 (Macintosh; Intel Mac OS X 10_15_7) AppleWebKit/537.36";
      sample_line "192.168.1.102 - - [25/Dec/2023:10:15:34 +0000] "
        "GET /contact.php HTTP/1.1"
        " 200 1876 " "-"
        "Mozilla/5.0 (X11; Linux x86_64) AppleWebKit/537.36";
      sample_line "192.168.1.103 - - [25/Dec/2023:10:15:35 +0000] "
        "GET /old-page.html HTTP/1.1"
        " 404 342 " "-"
        "Mozilla/5.0 (Windows NT 10.0; Win64; x64) Chrome/91.0.4472.124";
      sample_line "192.168.1.104 - - [25/Dec/2023:10:15:36 +0000] "
        "GET /admin/login HTTP/1.1"
        " 403 512 " "-"
        "Mozilla/5.0 (Windows NT 10.0; Win64; x64) Firefox/89.0";
      sample_line "192.168.1.105 - - [25/Dec/2023:10:15:37 +0000] "
        "GET /api/users HTTP/1.1"
        " 200 876 " "https://app.example.com"
        "Mozilla/5.0 (Macintosh; Intel Mac OS X 10_15_7) Safari/537.36";
      sample_line "192.168.1.100 - - [25/Dec/2023:10:15:38 +0000] "
        "GET /products/item123 HTTP/1.1"
        " 200 1543 " "https://example.com"
        "Mozilla/5.0 (Windows NT 10.0; Win64; x64) Edge/91.0.864.59";
      sample_line "192.168.1.106 - - [25/Dec/2023:10:15:39 +0000] "
        "GET /wp-admin HTTP/1.1"
        " 404 321 " "-"
        "sqlmap/1.4.2";
      sample_line "192.168.1.107 - - [25/Dec/2023:10:15:40 +0000] "
        "GET /search?q=<script>alert('xss')</script> HTTP/1.1"
        " 200 765 " "-"
        "Mozilla/5.0 (Windows NT 10.0; Win64; x64)";
      sample_line "192.168.1.108 - - [25/Dec/2023:10:15:41 +0000] "
        "GET /../../../etc/passwd HTTP/1.1"
        " 403 498 " "-"
        "Mozilla/5.0 (X11; Linux x86_64)";
      sample_line "192.168.1.109 - - [25/Dec/2023:10:15:42 +0000] "
        "POST /login HTTP/1.1"
        " 200 432 " "https://example.com"
        "Mozilla/5.0 (Windows NT 10.0; Win64; x64) Chrome/91.0.4472.124";
      sample_line "192.168.1.110 - - [25/Dec/2023:10:15:43 +0000] "
        "GET /images/logo.png HTTP/1.1"
        " 200 2345 " "https://example.com"
        "Mozilla/5.0 (Macintosh; Intel Mac OS X 10_15_7) AppleWebKit/537.36" ].

(** ** The specification's notions *)

(** A line counts for the analyzer when, trimmed, it is not empty and it
    either matches [log_pattern] or splits into at least seven tokens. *)
Definition counted (raw : string) : bool :=
  let line := Py.strip raw in
  negb (String.eqb line "") &&
  (matches log_pattern line || (7 <=? length (Py.split line))).

(** A field was extracted from a line, as the specification reads it: the
    line is not blank and either the primary grammar matches it, or the
    fallback applies (seven tokens or more) and one of its three rules finds
    a token. *)
Definition extracts_a_field (raw : string) : bool :=
  let line := Py.strip raw in
  let parts := Py.split line in
  negb (String.eqb line "") &&
  (matches log_pattern line
   || ((7 <=? length parts) &&
       (existsb (matches ipv4_pattern) parts
        || existsb (matches status_pattern) parts
        || existsb looks_like_url parts))).

(** Classification by a table of rules, the first rule one of whose words
    occurs in the lower-cased user agent giving the bucket. *)
Definition rule : Type := list string * string.

Definition first_rule (rules : list rule) (user_agent : string) : string :=
  match find (fun r : rule =>
                existsb (fun w => Py.contains w (Py.lower user_agent)) (fst r))
             rules with
  | Some r => snd r
  | None => "Other"
  end.

(** The order the specification gives. *)
Definition stated_precedence : list rule :=
  [ (["bot"; "crawler"], "Bot/Crawler"); (["edge"], "Edge");
    (["chrome"], "Chrome"); (["firefox"], "Firefox"); (["safari"], "Safari") ].

(** The order of the [if]/[elif] chain. *)
Definition coded_precedence : list rule :=
  [ (["chrome"], "Chrome"); (["firefox"], "Firefox"); (["safari"], "Safari");
    (["edge"], "Edge"); (["bot"; "crawler"], "Bot/Crawler") ].

Definition finding_eqb (a b : finding) : bool :=
  match a, b with
  | SuspiciousAgent x, SuspiciousAgent y => String.eqb x y
  | Attack n x, Attack m y => String.eqb n m && String.eqb x y
  | _, _ => false
  end.

(** How many times a finding is emitted. *)
Definition emitted (f : finding) (l : list finding) : nat :=
  length (filter (finding_eqb f) l).

(** The patterns of a category that occur in a URL. *)
Definition patterns_in (patterns : list string) (url : string) : list string :=
  filter (fun pattern => Py.contains pattern (Py.lower url)) patterns.

(** The names a user agent can be filed under. *)
Definition browser_names : list string :=
  ["Chrome"; "Firefox"; "Safari"; "Edge"; "Bot/Crawler"; "Other"].

(** The entry the primary grammar reads from a trimmed line, if it
    matches. *)
Definition parse_entry (line : string) : option Entry :=
  match rmatch log_pattern line with
  | Some (g, _) => Some (groupdict g)
  | None => None
  end.

(** The count of a key went up by [n]. *)
Definition grows_by (n : nat) (k : string) (before after : Counter.t) : Prop :=
  Counter.get k after = Counter.get k before + n.

(** The first line of the sample log. *)
Definition first_sample_line : string :=
  sample_line "192.168.1.100 - - [25/Dec/2023:10:15:32 +0000] "
    "GET /index.html HTTP/1.1"
    " 200 1524 " "https://example.com"
    "Mozilla/5.0 (Windows NT 10.0; Win64; x64) AppleWebKit/537.36".

(** Its eighth line, sent by sqlmap. *)
Definition sqlmap_sample_line : string :=
  sample_line "192.168.1.106 - - [25/Dec/2023:10:15:39 +0000] "
    "GET /wp-admin HTTP/1.1"
    " 404 321 " "-"
    "sqlmap/1.4.2".

(** *** Lines of the Combined Log Format *)

(** Every character of a text is of a class. *)
Fixpoint all (p : ascii -> bool) (s : string) : bool :=
  match s with
  | EmptyString => true
  | String c s' => p c && all p s'
  end.

(** A text that a greedy repetition [p{lo,}] can be: at least [lo]
    characters, all of the class. *)
Definition field (p : ascii -> bool) (lo : nat) (s : string) : bool :=
  (lo <=? String.length s) && all p s.

(** The fields are what the groups of [log_pattern] accept. *)
Definition well_formed (e : Entry) : bool :=
  field nonspace 1 (ip e) &&
  field (notchr "]"%char) 1 (timestamp e) &&
  field Py.isword 1 (method e) &&
  field nonspace 1 (url e) &&
  field protocol_char 1 (protocol e) &&
  field Py.isdigit 1 (status e) &&
  field Py.isdigit 1 (size e) &&
  field (notchr dquote) 0 (referrer e) &&
  field (notchr dquote) 0 (user_agent e).

(** The line that carries the fields of an entry. *)
Definition format_entry (e : Entry) : string :=
  ip e ++ " - - [" ++ timestamp e ++ "] " ++ dq ++ method e ++ " " ++ url e
  ++ " " ++ protocol e ++ dq ++ " " ++ status e ++ " " ++ size e ++ " " ++ dq
  ++ referrer e ++ dq ++ " " ++ dq ++ user_agent e ++ dq.

(** The entry of the first line of the sample log. *)
Definition first_sample_entry : Entry :=
  mkEntry "192.168.1.100" "25/Dec/2023:10:15:32 +0000" "GET" "/index.html"
          "HTTP/1.1" "200" "1524" "https://example.com"
          "Mozilla/5.0 (Windows NT 10.0; Win64; x64) AppleWebKit/537.36".

(** The entry of its eighth line. *)
Definition sqlmap_sample_entry : Entry :=
  mkEntry "192.168.1.106" "25/Dec/2023:10:15:39 +0000" "GET" "/wp-admin"
          "HTTP/1.1" "404" "321" "-" "sqlmap/1.4.2".

(** The six distributions of the statistics. *)
Definition distributions : list (Stats -> Counter.t) :=
  [status_codes; top_pages; top_ips; hourly_activity; user_agents; referrers].


(** The key and the count of each row. *)
Definition pairs (rs : list row) : Counter.t := map fst rs.


(** The five distributions a report shows. *)
Definition report_sections (r : Report) : list (list row) :=
  [map fst (status_distribution r); requested_pages r; ip_addresses r;
   hourly r; browsers r].


(** *** Timestamps of the Combined Log Format *)

(** [%04d] for a number below 10000. *)
Definition pad4 (n : nat) : string :=
  String (Py.digit_char (n / 1000)) (String (Py.digit_char (n / 100))
    (String (Py.digit_char (n / 10)) (String (Py.digit_char n) ""))).

(** [%b], as access logs write it. *)
Definition month_names : list string :=
  ["Jan"; "Feb"; "Mar"; "Apr"; "May"; "Jun";
   "Jul"; "Aug"; "Sep"; "Oct"; "Nov"; "Dec"].

(** [strftime('%d/%b/%Y:%H:%M:%S')]: the date part of a timestamp. *)
Definition clf_time (d : Datetime.t) : string :=
  Py.pad2 (Datetime.day d) ++ "/" ++ nth (Datetime.month d - 1) month_names ""
  ++ "/" ++ pad4 (Datetime.year d) ++ ":" ++ Py.pad2 (Datetime.hour d) ++ ":"
  ++ Py.pad2 (Datetime.minute d) ++ ":" ++ Py.pad2 (Datetime.second d).

(** [r] matches the text [a] at the first try. *)
Definition firstly (r : regex) (a : string) : Prop :=
  forall (A : Type) (rest : string) (g : groups)
         (k : string -> groups -> option A) (y : A),
    k rest g = Some y -> run A r (a ++ rest) g k = Some y.

(** [r] does not match at the start of a text that begins with [a]. *)
Definition rejects (r : regex) (a : string) : Prop :=
  forall (A : Type) (rest : string) (g : groups)
         (k : string -> groups -> option A),
    run A r (a ++ rest) g k = None.

(** * Properties *)

(** ** Counters *)

Module CounterFacts.
Import Counter.

Lemma get_incr_same (k : string) (c : t) : get k (incr k c) = S (get k c).
Proof.
  induction c as [|[k' n] c IH]; simpl.
  - now rewrite String.eqb_refl.
  - destruct (String.eqb k k') eqn:E; simpl; rewrite E; auto.
Qed.

Lemma get_incr_other (k k' : string) (c : t) :
  k <> k' -> get k' (incr k c) = get k' c.
Proof.
  intros Hne. induction c as [|[k0 n] c IH]; simpl.
  - destruct (String.eqb k' k) eqn:E; auto.
    apply String.eqb_eq in E. congruence.
  - destruct (String.eqb k k0) eqn:E; simpl.
    + apply String.eqb_eq in E. subst k0.
      destruct (String.eqb k' k) eqn:E'; auto.
      apply String.eqb_eq in E'. congruence.
    + now rewrite IH.
Qed.

Lemma total_incr (k : string) (c : t) : total (incr k c) = S (total c).
Proof.
  unfold total. induction c as [|[k' n] c IH]; simpl; auto.
  destruct (String.eqb k k'); simpl; auto.
  rewrite IH. lia.
Qed.

Lemma keys_incr (k x : string) (c : t) :
  In x (keys (incr k c)) -> x = k \/ In x (keys c).
Proof.
  unfold keys. induction c as [|[k' n] c IH]; simpl.
  - intuition.
  - destruct (String.eqb k k'); simpl; intuition.
Qed.

Lemma keys_incr_mono (k x : string) (c : t) :
  In x (keys c) -> In x (keys (incr k c)).
Proof.
  unfold keys. induction c as [|[k' n] c IH]; simpl.
  - intuition.
  - destruct (String.eqb k k'); simpl; intuition.
Qed.

Lemma keys_incr_known (k : string) (c : t) :
  In k (keys c) -> keys (incr k c) = keys c.
Proof.
  unfold keys. induction c as [|[k' n] c IH]; simpl.
  - intuition.
  - destruct (String.eqb k k') eqn:E; simpl; auto.
    intros [H|H].
    + subst. now rewrite String.eqb_refl in E.
    + now rewrite IH.
Qed.

Lemma keys_incr_new (k : string) (c : t) :
  ~ In k (keys c) -> keys (incr k c) = keys c ++ [k].
Proof.
  unfold keys. induction c as [|[k' n] c IH]; simpl; auto.
  intros Hn. destruct (String.eqb k k') eqn:E; simpl.
  - apply String.eqb_eq in E. subst k'. exfalso. apply Hn. now left.
  - rewrite IH; [reflexivity | intuition].
Qed.

Lemma NoDup_keys_incr (k : string) (c : t) :
  NoDup (keys c) -> NoDup (keys (incr k c)).
Proof.
  intros Hnd. destruct (in_dec string_dec k (keys c)) as [Hin|Hout].
  - now rewrite keys_incr_known.
  - rewrite keys_incr_new by assumption.
    apply NoDup_app; auto.
    + constructor; [intuition | constructor].
    + intros x Hx [Hk|[]]. subst. contradiction.
Qed.

End CounterFacts.

(** ** Ingestion, line by line *)

Lemma present_spec (s : string) : present s = true <-> s <> "" /\ s <> "-".
Proof.
  unfold present. rewrite andb_true_iff, !negb_true_iff, !String.eqb_neq.
  tauto.
Qed.

(** The three ways a line of the file can go. *)
Lemma ingest_line_cases (st : Stats) (raw : string) :
  (counted raw = false /\ ingest_line st raw = st) \/
  (counted raw = true /\
   exists g rest, rmatch log_pattern (Py.strip raw) = Some (g, rest) /\
                  ingest_line st raw = _process_log_entry (groupdict g) st) \/
  (counted raw = true /\
   rmatch log_pattern (Py.strip raw) = None /\
   7 <= length (Py.split (Py.strip raw)) /\
   ingest_line st raw = _parse_fallback (Py.strip raw) st).
Proof.
  unfold ingest_line, counted, matches, _parse_fallback.
  destruct (String.eqb (Py.strip raw) "") eqn:Eblank;
    [left; split; reflexivity|].
  destruct (rmatch log_pattern (Py.strip raw)) as [[g rest]|] eqn:Em.
  - right. left. split; [reflexivity|]. now exists g, rest.
  - destruct (7 <=? length (Py.split (Py.strip raw))) eqn:E7.
    + right. right. apply Nat.leb_le in E7. repeat split; auto.
    + left. split; reflexivity.
Qed.

Lemma ingest_lines_invariant (P : Stats -> Prop) :
  (forall st raw, P st -> P (ingest_line st raw)) ->
  forall lines st, P st -> P (ingest_lines st lines).
Proof.
  intros Hstep. unfold ingest_lines.
  induction lines as [|raw lines IH]; simpl; auto.
Qed.

Lemma log_pattern_empty : rmatch log_pattern "" = None.
Proof. vm_compute. reflexivity. Qed.

Lemma parse_entry_ingest (st : Stats) (raw : string) (e : Entry) :
  parse_entry (Py.strip raw) = Some e ->
  ingest_line st raw = _process_log_entry e st.
Proof.
  unfold parse_entry, ingest_line.
  destruct (String.eqb (Py.strip raw) "") eqn:Eblank.
  - apply String.eqb_eq in Eblank. rewrite Eblank, log_pattern_empty.
    discriminate.
  - destruct (rmatch log_pattern (Py.strip raw)) as [[g rest]|];
      [|discriminate].
    now intros [= <-].
Qed.

(** A line the primary grammar does not read is skipped or goes to the
    fallback. *)
Lemma unparsed_line_cases (st : Stats) (raw : string) :
  parse_entry (Py.strip raw) = None ->
  ingest_line st raw = st \/
  (7 <= length (Py.split (Py.strip raw)) /\
   ingest_line st raw = _parse_fallback (Py.strip raw) st).
Proof.
  intros Hnone.
  destruct (ingest_line_cases st raw)
    as [[_ E]|[[_ (g & rest & Hm & _)]|(_ & _ & H7 & E)]]; auto.
  unfold parse_entry in Hnone. rewrite Hm in Hnone. discriminate.
Qed.

Lemma count_first_total (test : string -> bool) (parts : list string)
      (c : Counter.t) :
  Counter.total (count_first test parts c) <= S (Counter.total c).
Proof.
  unfold count_first. destruct (find test parts).
  - rewrite CounterFacts.total_incr. lia.
  - lia.
Qed.

Lemma fallback_total (line : string) (st : Stats) :
  7 <= length (Py.split line) ->
  total_requests (_parse_fallback line st) = total_requests st + 1 /\
  status_codes (_parse_fallback line st) =
    count_first (matches status_pattern) (Py.split line) (status_codes st) /\
  referrers (_parse_fallback line st) = referrers st /\
  user_agents (_parse_fallback line st) = user_agents st.
Proof.
  intros H7. unfold _parse_fallback.
  apply Nat.leb_le in H7. rewrite H7. simpl. auto.
Qed.

(** C5. Whatever the lines of the input are (matched by the primary
    grammar, handled by the fallback, or skipped), the counts of
    [status_codes] sum to at most [total_requests]: this holds of the
    initial statistics, every single line keeps it, and so does every run. *)
Theorem status_sum_le_total :
  Counter.total (status_codes init_stats) <= total_requests init_stats /\
  (forall st raw,
      Counter.total (status_codes st) <= total_requests st ->
      Counter.total (status_codes (ingest_line st raw))
        <= total_requests (ingest_line st raw)) /\
  (forall st lines,
      Counter.total (status_codes st) <= total_requests st ->
      Counter.total (status_codes (ingest_lines st lines))
        <= total_requests (ingest_lines st lines)).
Proof.
  assert (Hstep : forall st raw,
             Counter.total (status_codes st) <= total_requests st ->
             Counter.total (status_codes (ingest_line st raw))
               <= total_requests (ingest_line st raw)).
  { intros st raw Hinv.
    destruct (ingest_line_cases st raw)
      as [[_ ->]|[[_ (g & rest & _ & ->)]|(_ & _ & H7 & ->)]]; auto.
    - simpl. rewrite CounterFacts.total_incr. lia.
    - destruct (fallback_total (Py.strip raw) st H7) as (-> & -> & _).
      pose proof (count_first_total (matches status_pattern)
                    (Py.split (Py.strip raw)) (status_codes st)).
      lia. }
  split; [vm_compute; lia|]. split; [exact Hstep|].
  intros st lines. revert st.
  apply (ingest_lines_invariant
           (fun st => Counter.total (status_codes st) <= total_requests st)).
  exact Hstep.
Qed.

(** The invariant on the run over the sample log. *)
Lemma status_sum_le_total_sample :
  Counter.total (status_codes (ingest_lines init_stats (readlines sample_log)))
    <= total_requests (ingest_lines init_stats (readlines sample_log)).
Proof.
  apply (proj2 (proj2 status_sum_le_total) init_stats (readlines sample_log)).
  vm_compute. lia.
Defined.

(** C10. The referrer distribution never holds the empty string or the
    [-] sentinel. A line the primary grammar reads adds one to the count of
    its own referrer when this referrer is neither empty nor [-], and leaves
    [referrers] as it is when it is empty or [-]; a line the primary grammar
    does not read leaves [referrers] as it is; so after any run every key is
    a non-empty string other than [-]. *)
Theorem referrer_keys_present :
  (forall st raw e,
      parse_entry (Py.strip raw) = Some e ->
      referrer e <> "" -> referrer e <> "-" ->
      referrers (ingest_line st raw) = Counter.incr (referrer e) (referrers st)) /\
  (forall st raw e,
      parse_entry (Py.strip raw) = Some e ->
      referrer e = "" \/ referrer e = "-" ->
      referrers (ingest_line st raw) = referrers st) /\
  (forall st raw,
      parse_entry (Py.strip raw) = None ->
      referrers (ingest_line st raw) = referrers st) /\
  (forall lines k,
      In k (Counter.keys (referrers (ingest_lines init_stats lines))) ->
      k <> "" /\ k <> "-").
Proof.
  assert (Hread : forall st raw e,
      parse_entry (Py.strip raw) = Some e ->
      referrers (ingest_line st raw)
      = if present (referrer e)
        then Counter.incr (referrer e) (referrers st) else referrers st).
  { intros st raw e He. now rewrite (parse_entry_ingest st raw e He). }
  assert (Hunread : forall st raw,
      parse_entry (Py.strip raw) = None ->
      referrers (ingest_line st raw) = referrers st).
  { intros st raw Hnone.
    destruct (unparsed_line_cases st raw Hnone) as [->|[H7 ->]]; auto.
    now destruct (fallback_total (Py.strip raw) st H7) as (_ & _ & -> & _). }
  split; [|split; [|split; [exact Hunread|]]].
  - intros st raw e He Hne Hns. rewrite (Hread st raw e He).
    now rewrite (proj2 (present_spec (referrer e)) (conj Hne Hns)).
  - intros st raw e He Habsent. rewrite (Hread st raw e He).
    destruct (present (referrer e)) eqn:Hp; auto.
    apply present_spec in Hp. destruct Hp, Habsent; contradiction.
  - intros lines.
    apply (ingest_lines_invariant
             (fun st => forall k, In k (Counter.keys (referrers st)) ->
                                  k <> "" /\ k <> "-")).
    + intros st raw Hinv k Hin.
      destruct (parse_entry (Py.strip raw)) as [e|] eqn:He.
      * rewrite (Hread st raw e He) in Hin.
        destruct (present (referrer e)) eqn:Hp; auto.
        apply CounterFacts.keys_incr in Hin. destruct Hin as [->|Hin]; auto.
        now apply present_spec.
      * rewrite (Hunread st raw He) in Hin. auto.
    + simpl. intros k [].
Qed.

(** The first line of the sample log counts its referrer, the line of
    sqlmap, whose referrer is [-], counts none, and the referrer counted for
    the sample log is a present one. *)
Lemma referrer_keys_present_sample :
  referrers (ingest_line init_stats first_sample_line)
  = Counter.incr "https://example.com" (referrers init_stats) /\
  referrers (ingest_line init_stats sqlmap_sample_line) = referrers init_stats /\
  In "https://example.com"
     (Counter.keys (referrers (ingest_lines init_stats (readlines sample_log)))) /\
  ("https://example.com" <> "" /\ "https://example.com" <> "-").
Proof.
  assert (Hin : In "https://example.com"
                   (Counter.keys
                      (referrers (ingest_lines init_stats (readlines sample_log)))))
    by (vm_compute; left; reflexivity).
  destruct referrer_keys_present as (Hcount & Hskip & _ & Hkeys).
  split; [|split; [|split; [exact Hin|]]].
  - apply (Hcount init_stats first_sample_line first_sample_entry).
    + vm_compute. reflexivity.
    + discriminate.
    + discriminate.
  - apply (Hskip init_stats sqlmap_sample_line sqlmap_sample_entry).
    + vm_compute. reflexivity.
    + right. reflexivity.
  - exact (Hkeys (readlines sample_log) _ Hin).
Defined.

(** C3, as the code has it. [total_requests] grows by the number of lines
    that are not blank and either match the primary grammar or split into at
    least seven tokens; any other line leaves the statistics as they are, and
    a line of seven tokens or more is counted also when no fallback rule
    finds a field in it. *)
Theorem total_requests_counts_lines :
  (forall st lines,
      total_requests (ingest_lines st lines)
      = total_requests st + length (filter counted lines)) /\
  (forall st raw, counted raw = false -> ingest_line st raw = st) /\
  (forall st raw,
      counted raw = true ->
      total_requests (ingest_line st raw) = total_requests st + 1).
Proof.
  assert (Hout : forall st raw, counted raw = false -> ingest_line st raw = st).
  { intros st raw Hc.
    destruct (ingest_line_cases st raw) as [[_ E]|[[Hc' _]|[Hc' _]]];
      auto; congruence. }
  assert (Hin : forall st raw, counted raw = true ->
             total_requests (ingest_line st raw) = total_requests st + 1).
  { intros st raw Hc.
    destruct (ingest_line_cases st raw)
      as [[Hc' _]|[[_ (g & rest & _ & ->)]|(_ & _ & H7 & ->)]].
    - congruence.
    - reflexivity.
    - now destruct (fallback_total (Py.strip raw) st H7) as (-> & _). }
  split; [|split; assumption].
  intros st lines. revert st. unfold ingest_lines.
  induction lines as [|raw lines IH]; intros st; simpl.
  - lia.
  - rewrite IH. destruct (counted raw) eqn:Hc; simpl.
    + rewrite (Hin st raw Hc). lia.
    + now rewrite (Hout st raw Hc).
Qed.

(** A line of seven words, none of them a field, is counted; a short line
    is not. *)
Lemma total_requests_counts_lines_example :
  total_requests (ingest_line init_stats "a b c d e f g") = 1 /\
  ingest_line init_stats "10.0.0.1 404 /missing" = init_stats.
Proof.
  split.
  - apply (proj2 (proj2 total_requests_counts_lines) init_stats).
    vm_compute. reflexivity.
  - apply (proj1 (proj2 total_requests_counts_lines) init_stats).
    vm_compute. reflexivity.
Defined.

(** The line [a b c d e f g] is not blank, does not match the primary
    grammar and holds no token for any of the three fallback rules, yet it
    adds one to [total_requests]. *)
Lemma fieldless_line_is_counted :
  Py.strip "a b c d e f g" <> "" /\
  matches log_pattern (Py.strip "a b c d e f g") = false /\
  find (matches ipv4_pattern) (Py.split "a b c d e f g") = None /\
  find (matches status_pattern) (Py.split "a b c d e f g") = None /\
  find looks_like_url (Py.split "a b c d e f g") = None /\
  extracts_a_field "a b c d e f g" = false /\
  length (filter extracts_a_field ["a b c d e f g"]) = 0 /\
  total_requests (ingest_lines init_stats ["a b c d e f g"]) = 1.
Proof.
  vm_compute. repeat split; try reflexivity. discriminate.
Qed.

(** ** Browser classification *)

(** C4, as the code has it. The browser bucket of a user agent is given by
    the first rule that applies, in the order chrome, firefox, safari, edge,
    bot or crawler, and is [Other] when none does; each test is a
    case-insensitive substring test. *)
Theorem browser_first_rule (user_agent : string) :
  browser user_agent = first_rule coded_precedence user_agent.
Proof.
  unfold browser, first_rule, coded_precedence.
  cbn [find existsb fst snd].
  destruct (Py.contains "chrome" (Py.lower user_agent)); [reflexivity|].
  destruct (Py.contains "firefox" (Py.lower user_agent)); [reflexivity|].
  destruct (Py.contains "safari" (Py.lower user_agent)); [reflexivity|].
  destruct (Py.contains "edge" (Py.lower user_agent)); [reflexivity|].
  destruct (Py.contains "bot" (Py.lower user_agent)); [reflexivity|].
  destruct (Py.contains "crawler" (Py.lower user_agent)); reflexivity.
Qed.

(** A user agent with [bot] and [chrome] is filed under Chrome, and so is
    one with [edge] and [chrome]; the order the specification states gives
    Bot/Crawler and Edge. *)
Lemma chrome_wins_over_bot_and_edge :
  present "Googlebot/2.1 Chrome/91.0" = true /\
  browser "Googlebot/2.1 Chrome/91.0" = "Chrome" /\
  first_rule stated_precedence "Googlebot/2.1 Chrome/91.0" = "Bot/Crawler" /\
  present "Chrome/91.0 Edge/91.0" = true /\
  browser "Chrome/91.0 Edge/91.0" = "Chrome" /\
  first_rule stated_precedence "Chrome/91.0 Edge/91.0" = "Edge".
Proof. vm_compute. repeat split; reflexivity. Qed.

Lemma contains_chrome_present (user_agent : string) :
  Py.contains "chrome" (Py.lower user_agent) = true ->
  present user_agent = true.
Proof.
  intros H. apply present_spec. split; intros ->; vm_compute in H; discriminate.
Qed.

(** C6. A user agent with both [chrome] and [safari] in it, in any case, is
    classified as Chrome and not as Safari, and the line that carries it
    counts for the Chrome bucket. *)
Theorem chrome_and_safari_is_chrome (ua : string) :
  Py.contains "chrome" (Py.lower ua) = true ->
  Py.contains "safari" (Py.lower ua) = true ->
  browser ua = "Chrome" /\
  browser ua <> "Safari" /\
  forall entry st,
    user_agent entry = ua ->
    user_agents (_process_log_entry entry st)
    = Counter.incr "Chrome" (user_agents st).
Proof.
  intros Hc Hs.
  assert (Hb : browser ua = "Chrome") by (unfold browser; now rewrite Hc).
  split; [exact Hb|]. split; [rewrite Hb; discriminate|].
  intros entry st E. unfold _process_log_entry. cbn [user_agents].
  now rewrite E, (contains_chrome_present _ Hc), Hb.
Qed.

(** The user agent of a real Chrome. *)
Lemma chrome_and_safari_is_chrome_example :
  browser "Mozilla/5.0 (X11; Linux x86_64) AppleWebKit/537.36 (KHTML, like Gecko) Chrome/91.0.4472.124 Safari/537.36"
  = "Chrome".
Proof.
  apply (chrome_and_safari_is_chrome
           "Mozilla/5.0 (X11; Linux x86_64) AppleWebKit/537.36 (KHTML, like Gecko) Chrome/91.0.4472.124 Safari/537.36");
    vm_compute; reflexivity.
Defined.

(** ** Additivity *)

Lemma grows_by_incr (k : string) (c : Counter.t) :
  grows_by 1 k c (Counter.incr k c).
Proof. unfold grows_by. rewrite CounterFacts.get_incr_same. lia. Qed.

Lemma grows_by_trans (n m : nat) (k : string) (a b c : Counter.t) :
  grows_by n k a b -> grows_by m k b c -> grows_by (n + m) k a c.
Proof. unfold grows_by. lia. Qed.

(** What one well-formed line does to the statistics. *)
Lemma process_log_entry_once (e : Entry) (st : Stats) :
  let st1 := _process_log_entry e st in
  total_requests st1 = total_requests st + 1 /\
  grows_by 1 (status e) (status_codes st) (status_codes st1) /\
  grows_by 1 (url e) (top_pages st) (top_pages st1) /\
  grows_by 1 (ip e) (top_ips st) (top_ips st1) /\
  (forall hour, hour_of (timestamp e) = Some hour ->
                grows_by 1 hour (hourly_activity st) (hourly_activity st1)) /\
  (present (user_agent e) = true ->
   grows_by 1 (browser (user_agent e)) (user_agents st) (user_agents st1)) /\
  (present (referrer e) = true ->
   grows_by 1 (referrer e) (referrers st) (referrers st1)).
Proof.
  unfold _process_log_entry.
  cbn [total_requests status_codes top_pages top_ips hourly_activity
       user_agents referrers].
  repeat split; try apply grows_by_incr.
  - intros hour ->. apply grows_by_incr.
  - intros ->. apply grows_by_incr.
  - intros ->. apply grows_by_incr.
Qed.

(** C9. Ingestion is additive. For a line the primary grammar matches, each
    of two ingestions adds exactly one to [total_requests] and to the count
    of every key the line touches (its status code, URL, IP, hour bucket,
    browser bucket and referrer), so after the second one each of them is
    two more than before. *)
Theorem ingestion_is_additive (st : Stats) (raw : string) (e : Entry) :
  parse_entry (Py.strip raw) = Some e ->
  let st1 := ingest_line st raw in
  let st2 := ingest_line st1 raw in
  (total_requests st1 = total_requests st + 1 /\
   total_requests st2 = total_requests st + 2) /\
  (grows_by 1 (status e) (status_codes st) (status_codes st1) /\
   grows_by 2 (status e) (status_codes st) (status_codes st2)) /\
  (grows_by 1 (url e) (top_pages st) (top_pages st1) /\
   grows_by 2 (url e) (top_pages st) (top_pages st2)) /\
  (grows_by 1 (ip e) (top_ips st) (top_ips st1) /\
   grows_by 2 (ip e) (top_ips st) (top_ips st2)) /\
  (forall hour,
      hour_of (timestamp e) = Some hour ->
      grows_by 1 hour (hourly_activity st) (hourly_activity st1) /\
      grows_by 2 hour (hourly_activity st) (hourly_activity st2)) /\
  (present (user_agent e) = true ->
   grows_by 1 (browser (user_agent e)) (user_agents st) (user_agents st1) /\
   grows_by 2 (browser (user_agent e)) (user_agents st) (user_agents st2)) /\
  (present (referrer e) = true ->
   grows_by 1 (referrer e) (referrers st) (referrers st1) /\
   grows_by 2 (referrer e) (referrers st) (referrers st2)).
Proof.
  intros Hm st1 st2. subst st1 st2.
  rewrite !(parse_entry_ingest _ raw e Hm).
  destruct (process_log_entry_once e st)
    as (Ht & Hs & Hu & Hi & Hh & Ha & Hr).
  destruct (process_log_entry_once e (_process_log_entry e st))
    as (Ht' & Hs' & Hu' & Hi' & Hh' & Ha' & Hr').
  cbv zeta in *.
  pose proof (grows_by_trans 1 1) as T.
  split; [split; [exact Ht | rewrite Ht', Ht; lia]|].
  split; [split; [exact Hs | exact (T _ _ _ _ Hs Hs')]|].
  split; [split; [exact Hu | exact (T _ _ _ _ Hu Hu')]|].
  split; [split; [exact Hi | exact (T _ _ _ _ Hi Hi')]|].
  split; [|split].
  - intros hour Hhour.
    split; [auto | exact (T _ _ _ _ (Hh _ Hhour) (Hh' _ Hhour))].
  - intros Hp. split; [auto | exact (T _ _ _ _ (Ha Hp) (Ha' Hp))].
  - intros Hp. split; [auto | exact (T _ _ _ _ (Hr Hp) (Hr' Hp))].
Qed.

(** Two ingestions of the first line of the sample, from the initial
    statistics. *)
Lemma ingestion_is_additive_sample :
  total_requests (ingest_line (ingest_line init_stats first_sample_line)
                              first_sample_line)
  = total_requests init_stats + 2.
Proof.
  refine (proj2 (proj1 (ingestion_is_additive init_stats first_sample_line
    (mkEntry "192.168.1.100" "25/Dec/2023:10:15:32 +0000" "GET" "/index.html"
             "HTTP/1.1" "200" "1524" "https://example.com"
             "Mozilla/5.0 (Windows NT 10.0; Win64; x64) AppleWebKit/537.36")
    _))).
  vm_compute. reflexivity.
Defined.

(** ** The security scan *)

Section Emitted.
Variable f : finding.

Lemma emitted_app (a b : list finding) :
  emitted f (a ++ b) = emitted f a + emitted f b.
Proof. unfold emitted. now rewrite filter_app, length_app. Qed.

Lemma emitted_flat_map {A : Type} (g : A -> list finding) (l : list A) :
  emitted f (flat_map g l) = list_sum (map (fun x => emitted f (g x)) l).
Proof.
  induction l as [|x l IH]; simpl; auto.
  now rewrite emitted_app, IH.
Qed.
End Emitted.

Lemma list_sum_zero {A : Type} (h : A -> nat) (l : list A) :
  (forall x, In x l -> h x = 0) -> list_sum (map h l) = 0.
Proof.
  induction l as [|x l IH]; simpl; auto.
  intros H. rewrite (H x), IH; auto.
Qed.

(** A sum over distinct keys in which only the key [u] contributes. *)
Lemma list_sum_single (u : string) (c : nat) (h : string -> nat)
      (l : list string) :
  (forall x, h x = if String.eqb u x then c else 0) ->
  NoDup l -> In u l -> list_sum (map h l) = c.
Proof.
  intros Hh. induction l as [|x l IH]; simpl; [intros _ []|].
  intros Hnd Hin. inversion Hnd as [|? ? Hx Hl]; subst.
  rewrite Hh. destruct (String.eqb u x) eqn:E.
  - apply String.eqb_eq in E. subst x.
    rewrite list_sum_zero; [lia|].
    intros y Hy. rewrite Hh.
    destruct (String.eqb u y) eqn:E'; auto.
    apply String.eqb_eq in E'. subst y. contradiction.
  - destruct Hin as [->|Hin]; [now rewrite String.eqb_refl in E|].
    now rewrite IH.
Qed.

Lemma emitted_check_url (name url pattern_name : string)
      (patterns : list string) (u : string) :
  emitted (Attack name url) (check_url pattern_name patterns u)
  = if String.eqb name pattern_name && String.eqb url u
    then length (patterns_in patterns url) else 0.
Proof.
  unfold check_url, patterns_in. rewrite emitted_flat_map.
  destruct (String.eqb name pattern_name && String.eqb url u) eqn:E.
  - apply andb_true_iff in E. destruct E as [En Eu].
    apply String.eqb_eq in Eu. subst u.
    induction patterns as [|p ps IH]; simpl; auto.
    destruct (Py.contains p (Py.lower url)); simpl; rewrite IH; auto.
    unfold emitted. simpl. now rewrite En, String.eqb_refl.
  - apply list_sum_zero. intros p _.
    destruct (Py.contains p (Py.lower u)); auto.
    unfold emitted. simpl. now rewrite E.
Qed.

Lemma emitted_in_category (name url : string) (cat : string * list string)
      (pages : list string) :
  NoDup pages -> In url pages ->
  emitted (Attack name url) (flat_map (check_url (fst cat) (snd cat)) pages)
  = if String.eqb name (fst cat)
    then length (patterns_in (snd cat) url) else 0.
Proof.
  intros Hnd Hin. rewrite emitted_flat_map.
  destruct (String.eqb name (fst cat)) eqn:E.
  - apply (list_sum_single url); auto.
    intros u. now rewrite emitted_check_url, E.
  - apply list_sum_zero. intros u _. now rewrite emitted_check_url, E.
Qed.

Lemma emitted_check_attacks (table : list (string * list string))
      (pages : Counter.t) (name url : string) (patterns : list string) :
  NoDup (map fst table) -> In (name, patterns) table ->
  NoDup (Counter.keys pages) -> In url (Counter.keys pages) ->
  emitted (Attack name url) (check_attacks table pages)
  = length (patterns_in patterns url).
Proof.
  intros Hnames Hcat Hnd Hin. unfold check_attacks.
  rewrite emitted_flat_map.
  induction table as [|cat table IH]; [destruct Hcat|].
  simpl. rewrite emitted_in_category by assumption.
  inversion Hnames as [|? ? Hfresh Hrest]; subst.
  destruct Hcat as [->|Hcat].
  - simpl. rewrite String.eqb_refl.
    rewrite list_sum_zero; [lia|].
    intros cat' Hcat'. rewrite emitted_in_category by assumption.
    destruct (String.eqb name (fst cat')) eqn:E; auto.
    apply String.eqb_eq in E. subst name.
    exfalso. apply Hfresh. simpl. now apply in_map.
  - destruct (String.eqb name (fst cat)) eqn:E.
    + apply String.eqb_eq in E. subst name.
      exfalso. apply Hfresh.
      change (fst cat) with (fst (fst cat, patterns)). now apply in_map.
    + now rewrite IH.
Qed.

Lemma emitted_check_agents (name url : string) (agents : Counter.t) :
  emitted (Attack name url) (check_agents agents) = 0.
Proof.
  unfold check_agents. rewrite emitted_flat_map.
  apply list_sum_zero. intros agent _. rewrite emitted_flat_map.
  apply list_sum_zero. intros ua _.
  now destruct (Py.contains agent (Py.lower ua)).
Qed.

Lemma count_first_NoDup (test : string -> bool) (parts : list string)
      (c : Counter.t) :
  NoDup (Counter.keys c) -> NoDup (Counter.keys (count_first test parts c)).
Proof.
  unfold count_first. destruct (find test parts); auto.
  apply CounterFacts.NoDup_keys_incr.
Qed.

(** The URL distribution never holds a key twice. *)
Lemma top_pages_NoDup (lines : list string) :
  NoDup (Counter.keys (top_pages (ingest_lines init_stats lines))).
Proof.
  apply (ingest_lines_invariant
           (fun st => NoDup (Counter.keys (top_pages st)))).
  - intros st raw Hinv.
    destruct (ingest_line_cases st raw)
      as [[_ ->]|[[_ (g & rest & _ & ->)]|(_ & _ & H7 & ->)]]; auto.
    + now apply CounterFacts.NoDup_keys_incr.
    + unfold _parse_fallback. apply Nat.leb_le in H7. rewrite H7.
      now apply count_first_NoDup.
  - constructor.
Qed.

(** C7, as the code has it. For every category of the attack table and
    every URL of the URL distribution, the scan emits one finding for each
    pattern of the category that occurs in the lower-cased URL: as many
    findings as patterns that match, none when none does, two for a URL
    with both [../] and [/etc/passwd]. *)
Theorem one_finding_per_matching_pattern
        (lines : list string) (name url : string) (patterns : list string) :
  In (name, patterns) attack_patterns ->
  In url (Counter.keys (top_pages (ingest_lines init_stats lines))) ->
  emitted (Attack name url)
          (_check_security_issues (ingest_lines init_stats lines))
  = length (patterns_in patterns url).
Proof.
  intros Hcat Hurl. unfold _check_security_issues.
  rewrite emitted_app, emitted_check_agents, Nat.add_0_l.
  apply emitted_check_attacks; auto using top_pages_NoDup.
  repeat constructor; simpl; intuition discriminate.
Qed.

(** The XSS finding of the sample log is emitted once. *)
Lemma one_finding_per_matching_pattern_sample :
  emitted (Attack "XSS" "/search?q=<script>alert('xss')</script>")
          (_check_security_issues
             (ingest_lines init_stats (readlines sample_log)))
  = length (patterns_in ["<script>"; "javascript:"; "onload="; "onerror="]
                        "/search?q=<script>alert('xss')</script>").
Proof.
  apply (one_finding_per_matching_pattern (readlines sample_log)).
  - simpl. right. left. reflexivity.
  - vm_compute. do 8 right. left. reflexivity.
Defined.

(** The URL [/../../../etc/passwd] of the sample log is a key of the URL
    distribution, and holds two patterns of the Path Traversal category; the
    scan emits two Path Traversal findings for it. *)
Lemma traversal_url_reported_twice :
  In "/../../../etc/passwd"
     (Counter.keys (top_pages (ingest_lines init_stats (readlines sample_log)))) /\
  patterns_in ["../"; "..\"; "/etc/passwd"] "/../../../etc/passwd"
  = ["../"; "/etc/passwd"] /\
  emitted (Attack "Path Traversal" "/../../../etc/passwd")
          (_check_security_issues
             (ingest_lines init_stats (readlines sample_log)))
  = 2 /\
  ~ emitted (Attack "Path Traversal" "/../../../etc/passwd")
            (_check_security_issues
               (ingest_lines init_stats (readlines sample_log)))
    <= 1.
Proof.
  assert (E : emitted (Attack "Path Traversal" "/../../../etc/passwd")
                (_check_security_issues
                   (ingest_lines init_stats (readlines sample_log))) = 2)
    by (vm_compute; reflexivity).
  split; [vm_compute; do 9 right; left; reflexivity|].
  split; [vm_compute; reflexivity|].
  rewrite E. split; [reflexivity | lia].
Qed.

Lemma browser_is_a_name (user_agent : string) :
  In (browser user_agent) browser_names.
Proof.
  unfold browser, browser_names.
  destruct (Py.contains "chrome" (Py.lower user_agent)); [simpl; tauto|].
  destruct (Py.contains "firefox" (Py.lower user_agent)); [simpl; tauto|].
  destruct (Py.contains "safari" (Py.lower user_agent)); [simpl; tauto|].
  destruct (Py.contains "edge" (Py.lower user_agent)); [simpl; tauto|].
  destruct (Py.contains "bot" (Py.lower user_agent)); [simpl; tauto|].
  destruct (Py.contains "crawler" (Py.lower user_agent)); simpl; tauto.
Qed.

(** Every key of [user_agents] is one of the six browser names. *)
Lemma user_agents_are_browser_names (lines : list string) (k : string) :
  In k (Counter.keys (user_agents (ingest_lines init_stats lines))) ->
  In k browser_names.
Proof.
  revert k.
  apply (ingest_lines_invariant
           (fun st => forall k, In k (Counter.keys (user_agents st)) ->
                                In k browser_names)).
  - intros st raw Hinv k Hin.
    destruct (ingest_line_cases st raw)
      as [[_ E]|[[_ (g & rest & _ & E)]|(_ & _ & H7 & E)]];
      rewrite E in Hin; auto.
    + unfold _process_log_entry in Hin. cbn [user_agents] in Hin.
      destruct (present (user_agent (groupdict g))); auto.
      apply CounterFacts.keys_incr in Hin. destruct Hin as [->|Hin]; auto.
      apply browser_is_a_name.
    + destruct (fallback_total (Py.strip raw) st H7) as (_ & _ & _ & E').
      rewrite E' in Hin. auto.
  - intros k [].
Qed.

Lemma flat_map_nil {A B : Type} (g : A -> list B) (l : list A) :
  (forall x, In x l -> g x = []) -> flat_map g l = [].
Proof.
  induction l as [|x l IH]; simpl; auto.
  intros H. rewrite (H x), IH; auto.
Qed.

(** No browser name holds the name of a suspicious agent. *)
Lemma no_agent_in_browser_name (agent name : string) :
  In agent suspicious_agents -> In name browser_names ->
  Py.contains agent (Py.lower name) = false.
Proof.
  unfold suspicious_agents, browser_names. simpl.
  intros Ha Hn.
  repeat (destruct Ha as [<-|Ha]);
    try (repeat (destruct Hn as [<-|Hn]); try reflexivity; destruct Hn).
  destruct Ha.
Qed.

(** So the first loop of the scan, which looks at the keys of
    [user_agents], reports nothing, whatever user agents the log holds. *)
Lemma check_agents_reports_nothing (lines : list string) :
  check_agents (user_agents (ingest_lines init_stats lines)) = [].
Proof.
  unfold check_agents.
  apply flat_map_nil. intros agent Ha.
  apply flat_map_nil. intros ua Hua.
  rewrite no_agent_in_browser_name; auto.
  now apply (user_agents_are_browser_names lines).
Qed.

(** C2, on the code. The line of the sample log that sqlmap sent is read by
    the primary grammar with the user agent [sqlmap/1.4.2], which holds the
    substring [sqlmap]; the analyzer files it under [Other], keeps no other
    trace of it, and the scan of the statistics emits no finding. *)
Theorem sqlmap_line_not_reported :
  option_map user_agent (parse_entry (Py.strip sqlmap_sample_line))
  = Some "sqlmap/1.4.2" /\
  existsb (fun agent => Py.contains agent (Py.lower "sqlmap/1.4.2"))
          suspicious_agents = true /\
  user_agents (ingest_lines init_stats [sqlmap_sample_line]) = [("Other", 1)] /\
  _check_security_issues (ingest_lines init_stats [sqlmap_sample_line]) = [].
Proof. vm_compute. repeat split; reflexivity. Qed.

(** C1, on the code. The analysis of the sample log: twelve lines, twelve
    requests, the status codes 200 (8), 404 (2) and 403 (2); one line carries
    the user agent [sqlmap/1.4.2], and the scan emits no suspicious-agent
    finding; it emits three attack findings, one XSS finding for the URL with
    [<script>] and two Path Traversal findings for the URL with
    [/etc/passwd], and none for SQL Injection or Command Injection. *)
Theorem sample_log_analysis :
  length (readlines sample_log) = 12 /\
  fst (parse_log_file (File sample_log) init_stats) = true /\
  total_requests (snd (parse_log_file (File sample_log) init_stats)) = 12 /\
  status_codes (snd (parse_log_file (File sample_log) init_stats))
  = [("200", 8); ("404", 2); ("403", 2)] /\
  map (fun raw => option_map user_agent (parse_entry (Py.strip raw)))
      (filter (fun raw => Py.contains "sqlmap" raw) (readlines sample_log))
  = [Some "sqlmap/1.4.2"] /\
  check_agents
    (user_agents (snd (parse_log_file (File sample_log) init_stats))) = [] /\
  check_attacks attack_patterns
    (top_pages (snd (parse_log_file (File sample_log) init_stats)))
  = [ Attack "XSS" "/search?q=<script>alert('xss')</script>";
      Attack "Path Traversal" "/../../../etc/passwd";
      Attack "Path Traversal" "/../../../etc/passwd" ].
Proof. vm_compute. repeat split; reflexivity. Qed.

(** ** The run and the report *)

Lemma rows_total_positive (n : nat) (l : Counter.t) :
  exists r, rows (S n) l = Some r.
Proof.
  induction l as [|[key count] l [r IH]]; simpl.
  - now exists [].
  - rewrite IH. simpl. eauto.
Qed.

Lemma generate_report_returns (st : Stats) :
  exists o, generate_report st = Some o.
Proof.
  unfold generate_report.
  destruct (total_requests st) as [|n] eqn:Et; simpl; [eauto|].
  destruct (rows_total_positive n (Counter.most_common (status_codes st)))
    as [codes ->].
  destruct (rows_total_positive n (Counter.most_common_n 10 (top_pages st)))
    as [pages ->].
  destruct (rows_total_positive n (Counter.most_common_n 10 (top_ips st)))
    as [ips ->].
  destruct (rows_total_positive n
              (Counter.most_common_n 24 (hourly_activity st)))
    as [hours ->].
  destruct (rows_total_positive n (Counter.most_common (user_agents st)))
    as [agents ->].
  simpl. eauto.
Qed.

(** C8. A run fails exactly when the source is not there or cannot be
    opened. On a file, whatever its text, [parse_log_file] returns [True] and
    the report raises nothing; the empty file leaves the statistics at zero;
    and [generate_report] answers statistics without requests with the
    no-entries message before any percentage is computed, so that it never
    divides by zero. *)
Theorem run_fails_only_without_source :
  (forall src st,
      fst (parse_log_file src st) = false <-> src = NotFound \/ src = OpenFails) /\
  (forall src,
      analyze src = SourceUnavailable <-> src = NotFound \/ src = OpenFails) /\
  (forall content, exists o, analyze (File content) = Reported o) /\
  parse_log_file (File "") init_stats = (true, init_stats) /\
  analyze (File "") = Reported NoValidEntries /\
  (forall st, total_requests st = 0 ->
              generate_report st = Some NoValidEntries) /\
  (forall st, generate_report st <> None).
Proof.
  assert (Hfile : forall content, exists o, analyze (File content) = Reported o).
  { intros content. unfold analyze, parse_log_file.
    destruct (generate_report_returns
                (ingest_lines init_stats (readlines content))) as [o ->].
    eauto. }
  repeat split.
  - destruct src; simpl; auto; discriminate.
  - intros [->| ->]; reflexivity.
  - destruct src as [| |content]; auto.
    destruct (Hfile content) as [o ->]. discriminate.
  - intros [->| ->]; reflexivity.
  - exact Hfile.
  - intros st Ht. unfold generate_report. now rewrite Ht.
  - intros st. destruct (generate_report_returns st) as [o ->]. discriminate.
Qed.

(** The report on the statistics of the empty file. *)
Lemma run_fails_only_without_source_empty :
  generate_report (snd (parse_log_file (File "") init_stats))
  = Some NoValidEntries.
Proof.
  apply (proj1 (proj2 (proj2 (proj2 (proj2 (proj2
           run_fails_only_without_source)))))).
  reflexivity.
Defined.

(** ** The primary grammar *)

Module Grammar.

Lemma field_spec (p : ascii -> bool) (lo : nat) (s : string) :
  field p lo s = true <-> lo <= String.length s /\ all p s = true.
Proof. unfold field. now rewrite andb_true_iff, Nat.leb_le. Qed.

Lemma length_append (a b : string) :
  String.length (a ++ b)%string = String.length a + String.length b.
Proof. induction a as [|c a IH]; simpl; auto. Qed.

Lemma take_append (a b : string) :
  take (String.length (a ++ b)%string - String.length b) (a ++ b)%string = a.
Proof.
  rewrite length_append, Nat.add_sub.
  induction a as [|c a IH]; simpl.
  - now destruct b.
  - now rewrite IH.
Qed.

(** A repetition followed by a character outside the class takes the whole
    run when the rest of the pattern accepts what follows. *)
Lemma rep_whole {A : Type} (p : ascii -> bool) (lo : nat) (run rest : string)
      (k : string -> option A) (x : A) :
  field p lo run = true ->
  match rest with
  | EmptyString => True
  | String d _ => p d = false
  end ->
  k rest = Some x ->
  rep A p lo (run ++ rest)%string k = Some x.
Proof.
  intros Hf Hd Hk. apply field_spec in Hf. destruct Hf as [Hlo Hall].
  revert lo Hlo. induction run as [|c run IH]; intros lo Hlo; simpl in *.
  - assert (lo = 0) by lia. subst lo.
    destruct rest as [|d rest]; simpl; auto.
    now rewrite Hd.
  - apply andb_true_iff in Hall. destruct Hall as [Hc Hall].
    rewrite Hc, (IH Hall (pred lo)) by lia. reflexivity.
Qed.

(** What a repetition took, whenever the match went through. *)
Lemma rep_took {A : Type} (p : ascii -> bool) (lo : nat) (s : string)
      (k : string -> option A) (x : A) :
  rep A p lo s k = Some x ->
  exists run rest,
    s = (run ++ rest)%string /\ field p lo run = true /\ k rest = Some x.
Proof.
  revert lo. induction s as [|c s IH]; intros lo; simpl.
  - destruct (lo =? 0) eqn:E; [|discriminate].
    apply Nat.eqb_eq in E. subst lo.
    intros Hk. exists EmptyString, EmptyString. repeat split; auto.
  - assert (Hstop : (if lo =? 0 then k (String c s) else None) = Some x ->
                    exists run rest, String c s = (run ++ rest)%string /\
                                     field p lo run = true /\ k rest = Some x).
    { destruct (lo =? 0) eqn:E; [|discriminate].
      apply Nat.eqb_eq in E. subst lo.
      intros Hk. exists EmptyString, (String c s). repeat split; auto. }
    destruct (p c) eqn:Hc; auto.
    destruct (rep A p (pred lo) s k) as [y|] eqn:Hr; auto.
    intros [= ->]. destruct (IH _ Hr) as (run & rest & -> & Hf & Hk).
    exists (String c run), rest. split; [reflexivity|]. split; auto.
    apply field_spec in Hf. apply field_spec. simpl. rewrite Hc.
    split; [lia | tauto].
Qed.

Lemma strip_prefix_spec (p s s' : string) :
  strip_prefix p s = Some s' -> s = (p ++ s')%string.
Proof.
  revert s. induction p as [|a p IH]; intros [|b s]; simpl;
    try discriminate; try (now intros [= ->]).
  destruct (Ascii.eqb a b) eqn:E; [|discriminate].
  apply Ascii.eqb_eq in E. subst b. intros H. now rewrite (IH _ H).
Qed.

Lemma strip_prefix_append (p s : string) :
  strip_prefix p (p ++ s)%string = Some s.
Proof.
  induction p as [|a p IH]; simpl; [now destruct s|].
  now rewrite Ascii.eqb_refl.
Qed.

Lemma append_empty (a : string) : (a ++ "")%string = a.
Proof. induction a as [|x a IH]; simpl; [|rewrite IH]; reflexivity. Qed.

Lemma append_assoc (a b c : string) :
  ((a ++ b) ++ c = a ++ (b ++ c))%string.
Proof. induction a as [|x a IH]; simpl; [|rewrite IH]; reflexivity. Qed.

Lemma lstrip_nonspace (s : string) :
  field nonspace 1 s = true ->
  forall rest, Py.lstrip (s ++ rest) = (s ++ rest)%string.
Proof.
  intros Hf rest. apply field_spec in Hf. destruct Hf as [Hlen Hall].
  destruct s as [|c s]; simpl in *; [lia|].
  apply andb_true_iff in Hall. destruct Hall as [Hc _].
  unfold nonspace in Hc. apply negb_true_iff in Hc. now rewrite Hc.
Qed.

Lemma rstrip_nonspace_end (s : string) (d : ascii) :
  Py.isspace d = false ->
  Py.rstrip (s ++ String d EmptyString) = (s ++ String d EmptyString)%string.
Proof.
  intros Hd. induction s as [|c s IH]; simpl.
  - now rewrite Hd.
  - rewrite IH. now destruct s.
Qed.

(** One group of the pattern taking its field. *)
Ltac take_field :=
  cbn beta;
  lazymatch goal with
  | |- rep _ _ _ (?f ++ ?r)%string _ = Some _ =>
      apply (rep_whole _ _ f r);
      [ assumption | cbn; reflexivity | cbn beta; rewrite take_append ]
  end;
  rewrite ?strip_prefix_append.

(** The pattern on a line made of nine fields it accepts, whatever comes
    after the last double quote. *)
Lemma log_pattern_accepts (ip ts me ur pr st sz rf ua rest : string) :
  field nonspace 1 ip = true ->
  field (notchr "]"%char) 1 ts = true ->
  field Py.isword 1 me = true ->
  field nonspace 1 ur = true ->
  field protocol_char 1 pr = true ->
  field Py.isdigit 1 st = true ->
  field Py.isdigit 1 sz = true ->
  field (notchr dquote) 0 rf = true ->
  field (notchr dquote) 0 ua = true ->
  rmatch log_pattern
    (ip ++ " - - [" ++ ts ++ "] " ++ dq ++ me ++ " " ++ ur
     ++ " " ++ pr ++ dq ++ " " ++ st ++ " " ++ sz ++ " " ++ dq
     ++ rf ++ dq ++ " " ++ dq ++ ua ++ dq ++ rest)%string
  = Some ([("user_agent", ua); ("referrer", rf); ("size", sz); ("status", st);
           ("protocol", pr); ("url", ur); ("method", me); ("timestamp", ts);
           ("ip", ip)], rest).
Proof.
  intros Hip Hts Hme Hur Hpr Hst Hsz Hrf Hua.
  unfold rmatch, log_pattern. cbn [seq run].
  do 9 take_field.
  reflexivity.
Qed.

(** One group of a match that went through: its field and what follows. *)
Ltac took H :=
  apply rep_took in H;
  let f := fresh "f" in
  let r := fresh "r" in
  let Hf := fresh "Hf" in
  destruct H as (f & r & -> & Hf & H); cbn beta in H;
  rewrite take_append in H.

Ltac literal H :=
  lazymatch type of H with
  | match strip_prefix ?p ?s with _ => _ end = Some _ =>
      let E := fresh "E" in
      destruct (strip_prefix p s) eqn:E; [|discriminate H];
      apply strip_prefix_spec in E; subst s
  end.

(** Whenever the pattern matches, the line is made of nine fields it
    accepts, and the groups are these fields. *)
Lemma log_pattern_groups (line : string) (g : groups) (rest : string) :
  rmatch log_pattern line = Some (g, rest) ->
  exists e,
    groupdict g = e /\ well_formed e = true /\
    line = (format_entry e ++ rest)%string.
Proof.
  unfold rmatch, log_pattern. cbn [seq run]. intros H.
  took H. literal H.
  took H. literal H. literal H.
  took H. literal H.
  took H. literal H.
  took H. literal H. literal H.
  took H. literal H.
  took H. literal H. literal H.
  took H. literal H. literal H. literal H.
  took H. literal H.
  injection H as <- <-.
  exists (mkEntry f f0 f1 f2 f3 f4 f5 f6 f7).
  split; [reflexivity|]. split.
  - unfold well_formed. cbn [ip timestamp method url protocol status size
                               referrer user_agent].
    now rewrite Hf, Hf0, Hf1, Hf2, Hf3, Hf4, Hf5, Hf6, Hf7.
  - unfold format_entry. cbn [ip timestamp method url protocol status size
                                referrer user_agent].
    now rewrite !append_assoc.
Qed.

Lemma well_formed_fields (e : Entry) :
  well_formed e = true ->
  field nonspace 1 (ip e) = true /\
  field (notchr "]"%char) 1 (timestamp e) = true /\
  field Py.isword 1 (method e) = true /\
  field nonspace 1 (url e) = true /\
  field protocol_char 1 (protocol e) = true /\
  field Py.isdigit 1 (status e) = true /\
  field Py.isdigit 1 (size e) = true /\
  field (notchr dquote) 0 (referrer e) = true /\
  field (notchr dquote) 0 (user_agent e) = true.
Proof.
  unfold well_formed. rewrite !andb_true_iff. tauto.
Qed.

Lemma parse_entry_format (e : Entry) (rest : string) :
  well_formed e = true ->
  parse_entry (format_entry e ++ rest) = Some e.
Proof.
  intros Hwf. apply well_formed_fields in Hwf.
  destruct Hwf as (Hip & Hts & Hme & Hur & Hpr & Hst & Hsz & Hrf & Hua).
  unfold parse_entry, format_entry. rewrite !append_assoc.
  rewrite (log_pattern_accepts _ _ _ _ _ _ _ _ _ rest
             Hip Hts Hme Hur Hpr Hst Hsz Hrf Hua).
  now destruct e.
Qed.

Lemma strip_format_entry (e : Entry) :
  well_formed e = true -> Py.strip (format_entry e) = format_entry e.
Proof.
  intros Hwf. apply well_formed_fields in Hwf. destruct Hwf as (Hip & _).
  unfold Py.strip, format_entry.
  rewrite (lstrip_nonspace _ Hip).
  rewrite <- !append_assoc. apply rstrip_nonspace_end. reflexivity.
Qed.

End Grammar.

(** X1. A line of the Combined Log Format is read back into its fields. When
    the nine fields are texts the groups of the pattern accept, the line
    that carries them, followed by anything, parses to exactly these fields,
    and ingesting the line is processing this entry. *)
Theorem well_formed_line_parses (e : Entry) :
  well_formed e = true ->
  (forall rest, parse_entry (format_entry e ++ rest) = Some e) /\
  (forall st, ingest_line st (format_entry e) = _process_log_entry e st).
Proof.
  intros Hwf. split.
  - intros rest. now apply Grammar.parse_entry_format.
  - intros st. apply parse_entry_ingest.
    rewrite (Grammar.strip_format_entry e Hwf).
    rewrite <- (Grammar.append_empty (format_entry e)) at 1.
    now apply Grammar.parse_entry_format.
Qed.

(** The first line of the sample log. *)
Lemma well_formed_line_parses_sample :
  parse_entry (format_entry first_sample_entry ++ "") = Some first_sample_entry.
Proof.
  apply (proj1 (well_formed_line_parses first_sample_entry
                  ltac:(vm_compute; reflexivity))).
Defined.

(** X2. Whatever the primary grammar reads is a line of the Combined Log
    Format: when a line parses to an entry, each field is a text its group
    accepts (no space in the IP and the URL, digits only in the status and
    the size, no double quote in the referrer and the user agent), and the
    line is the entry written out, followed by the text the pattern left. *)
Theorem parsed_line_is_well_formed (line : string) (e : Entry) :
  parse_entry line = Some e ->
  well_formed e = true /\ exists rest, line = (format_entry e ++ rest)%string.
Proof.
  unfold parse_entry.
  destruct (rmatch log_pattern line) as [[g rest]|] eqn:Hm; [|discriminate].
  intros [= <-].
  destruct (Grammar.log_pattern_groups line g rest Hm) as (e & <- & Hwf & ->).
  split; [exact Hwf | now exists rest].
Qed.

(** The first line of the sample log, trimmed. *)
Lemma parsed_line_is_well_formed_sample :
  well_formed first_sample_entry = true /\
  exists rest,
    Py.strip first_sample_line = (format_entry first_sample_entry ++ rest)%string.
Proof.
  apply (parsed_line_is_well_formed (Py.strip first_sample_line)).
  vm_compute. reflexivity.
Defined.

(** ** How runs compose *)

Lemma in_distributions (P : (Stats -> Counter.t) -> Prop) :
  P status_codes -> P top_pages -> P top_ips -> P hourly_activity ->
  P user_agents -> P referrers ->
  forall dist, In dist distributions -> P dist.
Proof.
  intros H1 H2 H3 H4 H5 H6 dist Hin. unfold distributions in Hin. simpl in Hin.
  repeat (destruct Hin as [<-|Hin]; [assumption|]). destruct Hin.
Qed.

Ltac each_distribution :=
  let d := fresh "dist" in
  let H := fresh "Hin" in
  intros d H; pattern d; revert d H; apply in_distributions; cbv beta.

Lemma get_incr (k x : string) (c : Counter.t) :
  Counter.get k (Counter.incr x c)
  = Counter.get k c + Counter.get k (Counter.incr x Counter.empty).
Proof.
  destruct (string_dec x k) as [->|Hne].
  - rewrite !CounterFacts.get_incr_same. simpl. lia.
  - rewrite !(CounterFacts.get_incr_other x k) by assumption. simpl. lia.
Qed.

Lemma get_incr_bounds (k x : string) (c : Counter.t) :
  Counter.get k c <= Counter.get k (Counter.incr x c) <= Counter.get k c + 1.
Proof.
  destruct (string_dec x k) as [->|Hne].
  - rewrite CounterFacts.get_incr_same. lia.
  - rewrite (CounterFacts.get_incr_other x k) by assumption. lia.
Qed.

Lemma get_count_first (test : string -> bool) (parts : list string)
      (k : string) (c : Counter.t) :
  Counter.get k (count_first test parts c)
  = Counter.get k c + Counter.get k (count_first test parts Counter.empty).
Proof.
  unfold count_first. destruct (find test parts).
  - apply get_incr.
  - simpl. lia.
Qed.

(** What a line adds to the statistics is what it adds to empty ones. *)
Lemma ingest_line_adds (st : Stats) (raw : string) :
  total_requests (ingest_line st raw)
  = total_requests st + total_requests (ingest_line init_stats raw) /\
  forall dist, In dist distributions ->
  forall k, Counter.get k (dist (ingest_line st raw))
            = Counter.get k (dist st)
              + Counter.get k (dist (ingest_line init_stats raw)).
Proof.
  unfold ingest_line.
  destruct (String.eqb (Py.strip raw) "").
  { split; [simpl; lia|].
    each_distribution; intros k; simpl; lia. }
  destruct (rmatch log_pattern (Py.strip raw)) as [[g rest]|].
  - unfold _process_log_entry. cbn [total_requests init_stats].
    split; [lia|].
    each_distribution; intros k;
      cbn [status_codes top_pages top_ips hourly_activity user_agents
           referrers init_stats];
      try apply get_incr.
    + destruct (hour_of (timestamp (groupdict g)));
        [apply get_incr | simpl; lia].
    + destruct (present (user_agent (groupdict g)));
        [apply get_incr | simpl; lia].
    + destruct (present (referrer (groupdict g)));
        [apply get_incr | simpl; lia].
  - unfold _parse_fallback.
    destruct (7 <=? length (Py.split (Py.strip raw))).
    + cbn [total_requests init_stats]. split; [lia|].
      each_distribution; intros k;
        cbn [status_codes top_pages top_ips hourly_activity user_agents
             referrers init_stats];
        try apply get_count_first; simpl; lia.
    + split; [simpl; lia|].
      each_distribution; intros k; simpl; lia.
Qed.

Lemma ingest_lines_adds (lines : list string) (st : Stats) :
  total_requests (ingest_lines st lines)
  = total_requests st + total_requests (ingest_lines init_stats lines) /\
  forall dist, In dist distributions ->
  forall k, Counter.get k (dist (ingest_lines st lines))
            = Counter.get k (dist st)
              + Counter.get k (dist (ingest_lines init_stats lines)).
Proof.
  revert st. unfold ingest_lines.
  induction lines as [|raw lines IH]; intros st; cbn [fold_left].
  - split; [simpl; lia|].
    each_distribution; intros k; simpl; lia.
  - destruct (IH (ingest_line st raw)) as [Ht Hd].
    destruct (IH (ingest_line init_stats raw)) as [Ht0 Hd0].
    destruct (ingest_line_adds st raw) as [Ht1 Hd1].
    split; [lia|].
    intros dist Hin k.
    rewrite (Hd dist Hin k), (Hd0 dist Hin k), (Hd1 dist Hin k). lia.
Qed.

Lemma ingest_lines_app (st : Stats) (l1 l2 : list string) :
  ingest_lines st (l1 ++ l2) = ingest_lines (ingest_lines st l1) l2.
Proof. apply fold_left_app. Qed.

(** X3. Runs compose by addition. The statistics of a log made of two
    parts are, for [total_requests] and for the count of every key of every
    distribution, the sums of the statistics of the parts: analyzing in
    pieces and adding up gives the counts of analyzing at once. *)
Theorem counts_of_concatenation (l1 l2 : list string) :
  total_requests (ingest_lines init_stats (l1 ++ l2))
  = total_requests (ingest_lines init_stats l1)
    + total_requests (ingest_lines init_stats l2) /\
  forall dist, In dist distributions ->
  forall k, Counter.get k (dist (ingest_lines init_stats (l1 ++ l2)))
            = Counter.get k (dist (ingest_lines init_stats l1))
              + Counter.get k (dist (ingest_lines init_stats l2)).
Proof.
  rewrite ingest_lines_app.
  apply (ingest_lines_adds l2 (ingest_lines init_stats l1)).
Qed.

(** The count of the status code 200 over the sample log read twice. *)
Lemma counts_of_concatenation_sample :
  Counter.get "200"
    (status_codes (ingest_lines init_stats
                     (readlines sample_log ++ readlines sample_log)))
  = Counter.get "200" (status_codes (ingest_lines init_stats (readlines sample_log)))
    + Counter.get "200" (status_codes (ingest_lines init_stats (readlines sample_log))).
Proof.
  apply (proj2 (counts_of_concatenation (readlines sample_log)
                                        (readlines sample_log))).
  left. reflexivity.
Defined.

Lemma ingest_cons_adds (raw : string) (lines : list string) :
  total_requests (ingest_lines init_stats (raw :: lines))
  = total_requests (ingest_line init_stats raw)
    + total_requests (ingest_lines init_stats lines) /\
  forall dist, In dist distributions ->
  forall k, Counter.get k (dist (ingest_lines init_stats (raw :: lines)))
            = Counter.get k (dist (ingest_line init_stats raw))
              + Counter.get k (dist (ingest_lines init_stats lines)).
Proof.
  change (ingest_lines init_stats (raw :: lines))
    with (ingest_lines (ingest_line init_stats raw) lines).
  apply ingest_lines_adds.
Qed.

(** X4. The counts do not depend on the order of the lines: two logs with
    the same lines in any order give the same [total_requests] and the same
    count for every key of every distribution (only the order of the keys,
    hence of ties in the report, can differ). *)
Theorem counts_ignore_line_order (l1 l2 : list string) :
  Permutation l1 l2 ->
  total_requests (ingest_lines init_stats l1)
  = total_requests (ingest_lines init_stats l2) /\
  forall dist, In dist distributions ->
  forall k, Counter.get k (dist (ingest_lines init_stats l1))
            = Counter.get k (dist (ingest_lines init_stats l2)).
Proof.
  induction 1 as [|raw l l' Hp [IHt IHd]|a b l|l l' l'' _ [IHt IHd] _ [IHt' IHd']].
  - split; auto.
  - destruct (ingest_cons_adds raw l) as [Ht Hd].
    destruct (ingest_cons_adds raw l') as [Ht' Hd'].
    split; [lia|]. intros dist Hin k.
    rewrite (Hd dist Hin k), (Hd' dist Hin k), (IHd dist Hin k). reflexivity.
  - destruct (ingest_cons_adds b (a :: l)) as [Ht1 Hd1].
    destruct (ingest_cons_adds a l) as [Ht2 Hd2].
    destruct (ingest_cons_adds a (b :: l)) as [Ht3 Hd3].
    destruct (ingest_cons_adds b l) as [Ht4 Hd4].
    split; [lia|]. intros dist Hin k.
    rewrite (Hd1 dist Hin k), (Hd2 dist Hin k), (Hd3 dist Hin k),
      (Hd4 dist Hin k). lia.
  - split; [congruence|]. intros dist Hin k.
    rewrite (IHd dist Hin k). apply (IHd' dist Hin k).
Qed.

(** The sample log read backwards. *)
Lemma counts_ignore_line_order_sample :
  total_requests (ingest_lines init_stats (readlines sample_log))
  = total_requests (ingest_lines init_stats (rev (readlines sample_log))).
Proof.
  apply (proj1 (counts_ignore_line_order _ _
                  (Permutation_rev (readlines sample_log)))).
Defined.

(** X5. A line never lowers a count and never adds more than one to it:
    for every key of every distribution the count after a line is the count
    before or one more, and [total_requests] likewise. *)
Theorem line_adds_at_most_one (st : Stats) (raw : string) :
  (total_requests st <= total_requests (ingest_line st raw)
   <= total_requests st + 1) /\
  forall dist, In dist distributions ->
  forall k, Counter.get k (dist st)
            <= Counter.get k (dist (ingest_line st raw))
            <= Counter.get k (dist st) + 1.
Proof.
  destruct (ingest_line_cases st raw)
    as [[_ ->]|[[_ (g & rest & _ & ->)]|(_ & _ & H7 & ->)]].
  - split; [lia|]. intros dist _ k. lia.
  - unfold _process_log_entry. cbn [total_requests]. split; [lia|].
    each_distribution; intros k;
      cbn [status_codes top_pages top_ips hourly_activity user_agents
           referrers];
      try apply get_incr_bounds.
    + destruct (hour_of (timestamp (groupdict g)));
        [apply get_incr_bounds | lia].
    + destruct (present (user_agent (groupdict g)));
        [apply get_incr_bounds | lia].
    + destruct (present (referrer (groupdict g)));
        [apply get_incr_bounds | lia].
  - unfold _parse_fallback. apply Nat.leb_le in H7. rewrite H7.
    cbn [total_requests]. split; [lia|].
    each_distribution; intros k;
      cbn [status_codes top_pages top_ips hourly_activity user_agents
           referrers];
      try lia;
      unfold count_first;
      match goal with
      | |- context [find ?t ?l] => destruct (find t l)
      end; try apply get_incr_bounds; lia.
Qed.

(** The sample log, from the initial statistics. *)
Lemma line_adds_at_most_one_sample :
  Counter.get "200" (status_codes init_stats)
  <= Counter.get "200" (status_codes (ingest_line init_stats first_sample_line))
  <= Counter.get "200" (status_codes init_stats) + 1.
Proof.
  apply (proj2 (line_adds_at_most_one init_stats first_sample_line)).
  left. reflexivity.
Defined.

(** ** What the distributions hold *)

Lemma distributions_NoDup (lines : list string) :
  forall dist, In dist distributions ->
  NoDup (Counter.keys (dist (ingest_lines init_stats lines))).
Proof.
  apply (ingest_lines_invariant
           (fun st => forall dist, In dist distributions ->
                                   NoDup (Counter.keys (dist st)))).
  - intros st raw Hinv.
    assert (H1 := Hinv status_codes ltac:(simpl; tauto)).
    assert (H2 := Hinv top_pages ltac:(simpl; tauto)).
    assert (H3 := Hinv top_ips ltac:(simpl; tauto)).
    assert (H4 := Hinv hourly_activity ltac:(simpl; tauto)).
    assert (H5 := Hinv user_agents ltac:(simpl; tauto)).
    assert (H6 := Hinv referrers ltac:(simpl; tauto)).
    destruct (ingest_line_cases st raw)
      as [[_ ->]|[[_ (g & rest & _ & ->)]|(_ & _ & H7 & ->)]]; auto.
    + unfold _process_log_entry.
      each_distribution;
        cbn [status_codes top_pages top_ips hourly_activity user_agents
             referrers];
        try (now apply CounterFacts.NoDup_keys_incr).
      * destruct (hour_of _); auto. now apply CounterFacts.NoDup_keys_incr.
      * destruct (present _); auto. now apply CounterFacts.NoDup_keys_incr.
      * destruct (present _); auto. now apply CounterFacts.NoDup_keys_incr.
    + unfold _parse_fallback. apply Nat.leb_le in H7. rewrite H7.
      each_distribution;
        cbn [status_codes top_pages top_ips hourly_activity user_agents
             referrers];
        auto using count_first_NoDup.
  - each_distribution; constructor.
Qed.

Lemma distribution_sums_bounded (lines : list string) :
  forall dist, In dist distributions ->
  Counter.total (dist (ingest_lines init_stats lines))
  <= total_requests (ingest_lines init_stats lines).
Proof.
  apply (ingest_lines_invariant
           (fun st => forall dist, In dist distributions ->
                                   Counter.total (dist st) <= total_requests st)).
  - intros st raw Hinv.
    assert (H1 := Hinv status_codes ltac:(simpl; tauto)).
    assert (H2 := Hinv top_pages ltac:(simpl; tauto)).
    assert (H3 := Hinv top_ips ltac:(simpl; tauto)).
    assert (H4 := Hinv hourly_activity ltac:(simpl; tauto)).
    assert (H5 := Hinv user_agents ltac:(simpl; tauto)).
    assert (H6 := Hinv referrers ltac:(simpl; tauto)).
    destruct (ingest_line_cases st raw)
      as [[_ ->]|[[_ (g & rest & _ & ->)]|(_ & _ & H7 & ->)]]; auto.
    + unfold _process_log_entry.
      each_distribution;
        cbn [total_requests status_codes top_pages top_ips hourly_activity
             user_agents referrers];
        try (rewrite CounterFacts.total_incr; lia).
      * destruct (hour_of _); [rewrite CounterFacts.total_incr|]; lia.
      * destruct (present _); [rewrite CounterFacts.total_incr|]; lia.
      * destruct (present _); [rewrite CounterFacts.total_incr|]; lia.
    + unfold _parse_fallback. apply Nat.leb_le in H7. rewrite H7.
      each_distribution;
        cbn [total_requests status_codes top_pages top_ips hourly_activity
             user_agents referrers];
        try lia;
        match goal with
        | |- Counter.total (count_first ?t ?l ?c) <= _ =>
            pose proof (count_first_total t l c); lia
        end.
  - each_distribution; vm_compute; lia.
Qed.

(** When every counted line is in the primary grammar, the status codes,
    the pages and the IP addresses are counted once for each request. *)
Lemma primary_sums_exact (lines : list string) (st : Stats) :
  (forall raw, In raw lines -> counted raw = true ->
               matches log_pattern (Py.strip raw) = true) ->
  Counter.total (status_codes st) = total_requests st /\
  Counter.total (top_pages st) = total_requests st /\
  Counter.total (top_ips st) = total_requests st ->
  Counter.total (status_codes (ingest_lines st lines))
  = total_requests (ingest_lines st lines) /\
  Counter.total (top_pages (ingest_lines st lines))
  = total_requests (ingest_lines st lines) /\
  Counter.total (top_ips (ingest_lines st lines))
  = total_requests (ingest_lines st lines).
Proof.
  revert st. unfold ingest_lines.
  induction lines as [|raw lines IH]; intros st Hprim Hst; cbn [fold_left];
    [exact Hst|].
  apply IH; [intros r Hr; apply Hprim; now right|].
  destruct Hst as (Hs & Hp & Hi).
  destruct (ingest_line_cases st raw)
    as [[_ ->]|[[_ (g & rest & _ & ->)]|(Hc & Hm & _ & _)]]; auto.
  - unfold _process_log_entry.
    cbn [total_requests status_codes top_pages top_ips].
    rewrite !CounterFacts.total_incr. lia.
  - specialize (Hprim raw (or_introl eq_refl) Hc).
    unfold matches in Hprim. rewrite Hm in Hprim. discriminate.
Qed.

(** X6. None of the six distributions counts more than there are requests:
    after any run the counts of each distribution sum to at most
    [total_requests]; and when every counted line of the log is in the
    primary grammar, the counts of the status codes, of the pages and of the
    IP addresses each sum to exactly [total_requests]. *)
Theorem distribution_sums_le_total (lines : list string) :
  (forall dist, In dist distributions ->
     Counter.total (dist (ingest_lines init_stats lines))
     <= total_requests (ingest_lines init_stats lines)) /\
  ((forall raw, In raw lines -> counted raw = true ->
                matches log_pattern (Py.strip raw) = true) ->
   Counter.total (status_codes (ingest_lines init_stats lines))
   = total_requests (ingest_lines init_stats lines) /\
   Counter.total (top_pages (ingest_lines init_stats lines))
   = total_requests (ingest_lines init_stats lines) /\
   Counter.total (top_ips (ingest_lines init_stats lines))
   = total_requests (ingest_lines init_stats lines)).
Proof.
  split; [exact (distribution_sums_bounded lines)|].
  intros Hprim. apply (primary_sums_exact lines init_stats Hprim).
  repeat split.
Qed.

(** The sample log, all of whose lines are in the primary grammar. *)
Lemma distribution_sums_le_total_sample :
  Counter.total (top_pages (ingest_lines init_stats (readlines sample_log)))
  <= total_requests (ingest_lines init_stats (readlines sample_log)) /\
  Counter.total (status_codes (ingest_lines init_stats (readlines sample_log)))
  = total_requests (ingest_lines init_stats (readlines sample_log)).
Proof.
  split.
  - apply (proj1 (distribution_sums_le_total (readlines sample_log))).
    right. left. reflexivity.
  - apply (proj2 (distribution_sums_le_total (readlines sample_log))).
    intros raw Hin _. vm_compute in Hin.
    repeat (destruct Hin as [<-|Hin]; [vm_compute; reflexivity|]).
    destruct Hin.
Defined.





(** X8. The browser distribution holds the six browser names only: after
    any run each of its keys is one of Chrome, Firefox, Safari, Edge,
    Bot/Crawler and Other, whatever the user agents were, and there are at
    most six rows of browsers in the report. *)
Theorem browser_keys_are_browser_names (lines : list string) :
  (forall k,
      In k (Counter.keys (user_agents (ingest_lines init_stats lines))) ->
      In k browser_names) /\
  length (Counter.keys (user_agents (ingest_lines init_stats lines))) <= 6.
Proof.
  split; [apply user_agents_are_browser_names|].
  change 6 with (length browser_names).
  apply NoDup_incl_length;
    [|intros k; apply user_agents_are_browser_names].
  apply distributions_NoDup. simpl. tauto.
Qed.

(** The buckets of the sample log. *)
Lemma browser_keys_are_browser_names_sample : In "Other" browser_names.
Proof.
  apply (proj1 (browser_keys_are_browser_names (readlines sample_log))).
  vm_compute. left. reflexivity.
Defined.

Lemma field_cons (p : ascii -> bool) (c : ascii) (t : string) :
  p c = true -> all p t = true -> field p 1 (String c t) = true.
Proof.
  intros Hc Ht. apply Grammar.field_spec. simpl. rewrite Hc, Ht.
  split; [lia | reflexivity].
Qed.

(** The tokens of [split] are not empty and hold no white space. *)
Lemma split_tokens (s t : string) :
  In t (Py.split s) -> field nonspace 1 t = true.
Proof.
  revert t. induction s as [|c s IH]; intros t Hin; [destruct Hin|].
  cbn [Py.split] in Hin.
  destruct (Py.isspace c) eqn:Hc; [auto|].
  assert (Hn : nonspace c = true) by (unfold nonspace; now rewrite Hc).
  remember (Py.split s) as toks eqn:E.
  destruct s as [|c' s'].
  - destruct Hin as [<-|[]]. now apply field_cons.
  - destruct (Py.isspace c').
    + destruct Hin as [<-|Hin]; [now apply field_cons | auto].
    + destruct toks as [|t0 ts].
      * destruct Hin as [<-|[]]. now apply field_cons.
      * destruct Hin as [<-|Hin]; [|apply IH; now right].
        apply field_cons; auto.
        assert (H0 : field nonspace 1 t0 = true) by (apply IH; now left).
        apply Grammar.field_spec in H0. tauto.
Qed.

(** A token the status rule of the fallback accepts is three digits. *)
Lemma status_pattern_digits (t : string) :
  matches status_pattern t = true -> field nonspace 1 t = true ->
  String.length t = 3 /\ all Py.isdigit t = true.
Proof.
  unfold matches, rmatch, status_pattern.
  destruct t as [|a [|b [|c t]]]; cbn [seq run]; try discriminate.
  - destruct (Py.isdigit a); discriminate.
  - destruct (Py.isdigit a); [destruct (Py.isdigit b)|]; discriminate.
  - destruct (Py.isdigit a) eqn:Ha; [|discriminate].
    destruct (Py.isdigit b) eqn:Hb; [|discriminate].
    destruct (Py.isdigit c) eqn:Hc; [|discriminate].
    destruct t as [|d [|e t]]; try discriminate.
    + intros _ _. cbn [all String.length]. rewrite Ha, Hb, Hc. auto.
    + destruct (Ascii.eqb d "010") eqn:Hd; [|discriminate].
      apply Ascii.eqb_eq in Hd. subst d. intros _ Hf.
      apply Grammar.field_spec in Hf. destruct Hf as [_ Hf]. cbn [all] in Hf.
      rewrite !andb_true_iff in Hf.
      destruct Hf as (_ & _ & _ & Hlf & _). vm_compute in Hlf. discriminate.
Qed.

Lemma count_first_keys (test : string -> bool) (parts : list string)
      (c : Counter.t) (k : string) :
  In k (Counter.keys (count_first test parts c)) ->
  In k (Counter.keys c) \/ (In k parts /\ test k = true).
Proof.
  unfold count_first. destruct (find test parts) as [part|] eqn:Ef; auto.
  intros Hin. apply CounterFacts.keys_incr in Hin.
  destruct Hin as [->|Hin]; auto.
  right. now apply find_some in Ef.
Qed.

(** X9. The keys have the shape of what they count: after any run every
    key of the status distribution is a non-empty run of digits, and every
    key of the URL and IP distributions is a non-empty text without white
    space, whether the line went through the primary grammar or through the
    fallback. *)
Theorem keys_are_well_shaped (lines : list string) (k : string) :
  (In k (Counter.keys (status_codes (ingest_lines init_stats lines))) ->
   field Py.isdigit 1 k = true) /\
  (In k (Counter.keys (top_pages (ingest_lines init_stats lines))) ->
   field nonspace 1 k = true) /\
  (In k (Counter.keys (top_ips (ingest_lines init_stats lines))) ->
   field nonspace 1 k = true).
Proof.
  revert k.
  apply (ingest_lines_invariant
           (fun st => forall k,
                (In k (Counter.keys (status_codes st)) ->
                 field Py.isdigit 1 k = true) /\
                (In k (Counter.keys (top_pages st)) ->
                 field nonspace 1 k = true) /\
                (In k (Counter.keys (top_ips st)) ->
                 field nonspace 1 k = true))).
  - intros st raw Hinv k. destruct (Hinv k) as (Hs & Hp & Hi).
    destruct (ingest_line_cases st raw)
      as [[_ ->]|[[_ (g & rest & Hm & ->)]|(_ & _ & H7 & ->)]]; auto.
    + destruct (Grammar.log_pattern_groups _ _ _ Hm) as (e & -> & Hwf & _).
      apply Grammar.well_formed_fields in Hwf.
      destruct Hwf as (Hip & _ & _ & Hur & _ & Hst & _).
      unfold _process_log_entry. cbn [status_codes top_pages top_ips].
      repeat split; intros Hin; apply CounterFacts.keys_incr in Hin;
        destruct Hin as [->|Hin]; auto.
    + unfold _parse_fallback. apply Nat.leb_le in H7. rewrite H7.
      cbn [status_codes top_pages top_ips].
      repeat split; intros Hin; apply count_first_keys in Hin;
        destruct Hin as [Hin|[Hin Ht]]; auto.
      * apply split_tokens in Hin.
        destruct (status_pattern_digits k Ht Hin) as [Hlen Hall].
        apply Grammar.field_spec. split; [lia | exact Hall].
      * now apply split_tokens in Hin.
      * now apply split_tokens in Hin.
  - intros k. repeat split; intros [].
Qed.

(** The status code 200 of the sample log. *)
Lemma keys_are_well_shaped_sample : field Py.isdigit 1 "200" = true.
Proof.
  apply (proj1 (keys_are_well_shaped (readlines sample_log) "200")).
  vm_compute. left. reflexivity.
Defined.

(** ** Status names *)

Lemma status_name_found (names : list (string * string)) (code name : string) :
  NoDup (map fst names) -> In (code, name) names ->
  _get_status_name_in names code = name.
Proof.
  induction names as [|[c n] names IH]; simpl; [intros _ []|].
  intros Hnd Hin. inversion Hnd as [|? ? Hfresh Hrest]; subst.
  destruct Hin as [[= -> ->]|Hin].
  - now rewrite String.eqb_refl.
  - destruct (String.eqb code c) eqn:E; auto.
    apply String.eqb_eq in E. subst c. exfalso. apply Hfresh.
    change code with (fst (code, name)). now apply in_map.
Qed.

Lemma status_name_unknown (names : list (string * string)) (code : string) :
  (forall c n, In (c, n) names -> n <> "Unknown") ->
  _get_status_name_in names code = "Unknown" <-> ~ In code (map fst names).
Proof.
  intros Hnames. induction names as [|[c n] names IH]; simpl; [tauto|].
  destruct (String.eqb code c) eqn:E.
  - apply String.eqb_eq in E. subst c. split.
    + intros ->. exfalso. apply (Hnames code "Unknown"); auto. now left.
    + intros H. exfalso. apply H. now left.
  - apply String.eqb_neq in E. rewrite IH.
    + split; [intros H [Hc|Hc]; auto; congruence | tauto].
    + intros c0 n0 Hin. apply (Hnames c0 n0). now right.
Qed.

(** X10. The name of a status code is the one of the table for each of the
    eleven codes the table knows, and [Unknown] for every other text, and
    only for those. *)
Theorem status_name_lookup (code : string) :
  (forall name, In (code, name) status_names -> _get_status_name code = name) /\
  (_get_status_name code = "Unknown" <-> ~ In code (map fst status_names)).
Proof.
  unfold _get_status_name. split.
  - intros name. apply status_name_found.
    unfold status_names. simpl.
    repeat (constructor; [simpl; intuition discriminate|]). constructor.
  - apply status_name_unknown. unfold status_names. simpl.
    intros c n Hin.
    repeat (destruct Hin as [[= <- <-]|Hin]; [discriminate|]). destruct Hin.
Qed.

(** The code 404 and a code outside the table. *)
Lemma status_name_lookup_example :
  _get_status_name "404" = "Not Found" /\ _get_status_name "418" = "Unknown".
Proof.
  split.
  - apply (proj1 (status_name_lookup "404")). simpl. tauto.
  - apply (proj2 (status_name_lookup "418")). simpl. intuition discriminate.
Defined.

(** ** The report *)

Module ReportFacts.

Lemma insert_desc_perm (x : string * nat) (l : Counter.t) :
  Permutation (Counter.insert_desc x l) (x :: l).
Proof.
  induction l as [|y l IH]; simpl; auto.
  destruct (snd y <? snd x); auto.
  rewrite IH. apply perm_swap.
Qed.

Lemma most_common_perm (c : Counter.t) : Permutation (Counter.most_common c) c.
Proof.
  unfold Counter.most_common.
  assert (H : forall acc,
             Permutation
               (fold_left (fun acc x => Counter.insert_desc x acc) c acc)
               (c ++ acc)).
  { induction c as [|x c IH]; intros acc; simpl; auto.
    rewrite IH, insert_desc_perm. symmetry. apply Permutation_middle. }
  rewrite H. now rewrite app_nil_r.
Qed.






Lemma total_cons (k : string) (n : nat) (l : Counter.t) :
  Counter.total ((k, n) :: l) = n + Counter.total l.
Proof. reflexivity. Qed.

Lemma total_perm (a b : Counter.t) :
  Permutation a b -> Counter.total a = Counter.total b.
Proof.
  induction 1 as [|[k n] a b _ IH|[k n] [k' n'] a|a b c _ IH1 _ IH2];
    rewrite ?total_cons; lia.
Qed.

Lemma total_firstn (n : nat) (l : Counter.t) :
  Counter.total (firstn n l) <= Counter.total l.
Proof.
  revert l. induction n as [|n IH]; intros [|[k m] l]; simpl firstn;
    rewrite ?total_cons; try (unfold Counter.total; simpl; lia).
  specialize (IH l). lia.
Qed.

Lemma total_in (k : string) (n : nat) (l : Counter.t) :
  In (k, n) l -> n <= Counter.total l.
Proof.
  induction l as [|[k' n'] l IH]; [intros []|].
  rewrite total_cons. intros [[= -> ->]|Hin]; [lia|].
  specialize (IH Hin). lia.
Qed.

Lemma rows_pairs (t : nat) (l : Counter.t) (rs : list row) :
  rows t l = Some rs -> pairs rs = l.
Proof.
  revert rs. induction l as [|[k n] l IH]; cbn [rows]; intros rs.
  - now intros [= <-].
  - destruct (percentage n t) as [p|]; cbn [bind]; [|discriminate].
    destruct (rows t l) as [rest|]; cbn [bind]; [|discriminate].
    intros [= <-]. unfold pairs in *. cbn [map fst]. now rewrite (IH rest).
Qed.

(** What a printed report was made of. *)
Lemma generate_report_printed (st : Stats) (r : Report) :
  generate_report st = Some (Printed r) ->
  total_requests st <> 0 /\
  basic_total r = total_requests st /\
  rows (total_requests st) (Counter.most_common (status_codes st))
  = Some (map fst (status_distribution r)) /\
  rows (total_requests st) (Counter.most_common_n 10 (top_pages st))
  = Some (requested_pages r) /\
  rows (total_requests st) (Counter.most_common_n 10 (top_ips st))
  = Some (ip_addresses r) /\
  rows (total_requests st) (Counter.most_common_n 24 (hourly_activity st))
  = Some (hourly r) /\
  rows (total_requests st) (Counter.most_common (user_agents st))
  = Some (browsers r) /\
  security r = _check_security_issues st.
Proof.
  unfold generate_report.
  destruct (total_requests st =? 0) eqn:Et; [discriminate|].
  apply Nat.eqb_neq in Et.
  destruct (rows _ (Counter.most_common (status_codes st))) as [codes|];
    cbn [bind]; [|discriminate].
  destruct (rows _ (Counter.most_common_n 10 (top_pages st))) as [pages|];
    cbn [bind]; [|discriminate].
  destruct (rows _ (Counter.most_common_n 10 (top_ips st))) as [ips|];
    cbn [bind]; [|discriminate].
  destruct (rows _ (Counter.most_common_n 24 (hourly_activity st)))
    as [hours|]; cbn [bind]; [|discriminate].
  destruct (rows _ (Counter.most_common (user_agents st))) as [agents|];
    cbn [bind]; [|discriminate].
  intros [= <-].
  cbn [basic_total status_distribution requested_pages ip_addresses hourly
       browsers security].
  rewrite map_map. cbn [fst]. rewrite map_id. repeat split; auto.
Qed.

Lemma most_common_total (c : Counter.t) :
  Counter.total (Counter.most_common c) = Counter.total c.
Proof. apply total_perm, most_common_perm. Qed.

Lemma most_common_n_total (n : nat) (c : Counter.t) :
  Counter.total (Counter.most_common_n n c) <= Counter.total c.
Proof.
  unfold Counter.most_common_n. rewrite <- (most_common_total c).
  apply total_firstn.
Qed.

End ReportFacts.

(** X11. No row of a report counts more than the total it is compared
    with. In the report on the statistics of any run the total is the number
    of requests and is not zero, and in each of the five distributions shown
    (status codes, pages, IP addresses, hours, browsers) the count of every
    row is at most this total and the counts of the rows sum to at most this
    total. *)
Theorem report_counts_within_total (lines : list string) (r : Report) :
  generate_report (ingest_lines init_stats lines) = Some (Printed r) ->
  basic_total r = total_requests (ingest_lines init_stats lines) /\
  0 < basic_total r /\
  forall section, In section (report_sections r) ->
    Counter.total (pairs section) <= basic_total r /\
    forall row, In row section -> snd (fst row) <= basic_total r.
Proof.
  intros Hrep.
  destruct (ReportFacts.generate_report_printed _ _ Hrep)
    as (Ht & Hb & Hcodes & Hpages & Hips & Hhours & Hagents & _).
  apply ReportFacts.rows_pairs in Hcodes, Hpages, Hips, Hhours, Hagents.
  pose proof (distribution_sums_bounded lines) as Hsum.
  set (st := ingest_lines init_stats lines) in *.
  pose proof (ReportFacts.most_common_total (status_codes st)) as E1.
  pose proof (ReportFacts.most_common_n_total 10 (top_pages st)) as E2.
  pose proof (ReportFacts.most_common_n_total 10 (top_ips st)) as E3.
  pose proof (ReportFacts.most_common_n_total 24 (hourly_activity st)) as E4.
  pose proof (ReportFacts.most_common_total (user_agents st)) as E5.
  assert (H1 := Hsum status_codes ltac:(simpl; tauto)).
  assert (H2 := Hsum top_pages ltac:(simpl; tauto)).
  assert (H3 := Hsum top_ips ltac:(simpl; tauto)).
  assert (H4 := Hsum hourly_activity ltac:(simpl; tauto)).
  assert (H5 := Hsum user_agents ltac:(simpl; tauto)).
  split; [exact Hb|]. split; [lia|].
  assert (Hrows : forall section,
             Counter.total (pairs section) <= basic_total r ->
             Counter.total (pairs section) <= basic_total r /\
             forall row, In row section -> snd (fst row) <= basic_total r).
  { intros section Hle. split; [exact Hle|]. intros [[k n] q] Hin.
    cbn [fst snd].
    assert (Hp : In (k, n) (pairs section))
      by (apply (in_map fst) in Hin; exact Hin).
    pose proof (ReportFacts.total_in k n _ Hp). lia. }
  intros section Hin. unfold report_sections in Hin. cbn [In] in Hin.
  destruct Hin as [<-|[<-|[<-|[<-|[<-|[]]]]]]; apply Hrows;
    rewrite ?Hcodes, ?Hpages, ?Hips, ?Hhours, ?Hagents; lia.
Qed.

(** The report on the sample log. *)
Lemma report_counts_within_total_sample :
  exists r,
    generate_report (ingest_lines init_stats (readlines sample_log))
    = Some (Printed r) /\
    Counter.total (pairs (requested_pages r)) <= basic_total r.
Proof.
  destruct (generate_report (ingest_lines init_stats (readlines sample_log)))
    as [[|r]|] eqn:Hrep; try (vm_compute in Hrep; discriminate).
  exists r. split; [reflexivity|].
  destruct (report_counts_within_total (readlines sample_log) r Hrep)
    as (_ & _ & Hsections).
  apply (Hsections (requested_pages r)).
  simpl. tauto.
Defined.



(** ** Timestamps *)

Module Timestamps.
Import Grammar.

Lemma code_digit_char (n : nat) : Py.code (Py.digit_char n) = 48 + n mod 10.
Proof.
  unfold Py.code, Py.digit_char. apply nat_ascii_embedding.
  pose proof (Nat.mod_upper_bound n 10). lia.
Qed.

Lemma isdigit_digit_char (n : nat) : Py.isdigit (Py.digit_char n) = true.
Proof.
  unfold Py.isdigit, Py.between. rewrite code_digit_char.
  pose proof (Nat.mod_upper_bound n 10).
  apply andb_true_iff. split; apply Nat.leb_le; lia.
Qed.

Lemma int_pad2 (n : nat) : n < 100 -> Py.int (Py.pad2 n) = n.
Proof.
  intros Hn. unfold Py.int, Py.pad2. cbn [Py.int_acc].
  rewrite !isdigit_digit_char, !code_digit_char.
  pose proof (Nat.div_mod_eq n 10).
  pose proof (Nat.mod_upper_bound n 10).
  assert (n / 10 < 10) by (apply Nat.Div0.div_lt_upper_bound; lia).
  rewrite (Nat.mod_small (n / 10) 10) by lia. lia.
Qed.

Lemma firstly_lit (l : string) : firstly (Lit l) l.
Proof. intros A rest g k y Hk. cbn [run]. now rewrite strip_prefix_append. Qed.

Lemma firstly_cls (p : ascii -> bool) (c : ascii) :
  p c = true -> firstly (Cls p) (String c "").
Proof. intros Hc A rest g k y Hk. cbn [run append]. now rewrite Hc. Qed.

Lemma firstly_cat (r1 r2 : regex) (a b : string) :
  firstly r1 a -> firstly r2 b -> firstly (Cat r1 r2) (a ++ b).
Proof.
  intros H1 H2 A rest g k y Hk. cbn [run]. rewrite append_assoc.
  apply H1. now apply H2.
Qed.

Lemma firstly_alt_l (r1 r2 : regex) (a : string) :
  firstly r1 a -> firstly (Alt r1 r2) a.
Proof. intros H1 A rest g k y Hk. cbn [run]. now rewrite (H1 A rest g k y Hk). Qed.

Lemma firstly_alt_r (r1 r2 : regex) (a : string) :
  rejects r1 a -> firstly r2 a -> firstly (Alt r1 r2) a.
Proof.
  intros H1 H2 A rest g k y Hk. cbn [run]. rewrite (H1 A rest g k).
  now apply H2.
Qed.

Lemma firstly_grp (name : string) (r : regex) (a : string) :
  firstly r a ->
  forall (A : Type) (rest : string) (g : groups)
         (k : string -> groups -> option A) (y : A),
    k rest ((name, a) :: g) = Some y ->
    run A (Grp name r) (a ++ rest) g k = Some y.
Proof.
  intros Hr A rest g k y Hk. cbn [run]. apply Hr. now rewrite take_append.
Qed.

Lemma rejects_cls (p : ascii -> bool) (c : ascii) (a : string) :
  p c = false -> rejects (Cls p) (String c a).
Proof. intros Hc A rest g k. cbn [run append]. now rewrite Hc. Qed.

Lemma rejects_lit (l a : string) :
  (forall rest, strip_prefix l (a ++ rest) = None) -> rejects (Lit l) a.
Proof. intros H A rest g k. cbn [run]. now rewrite H. Qed.

Lemma rejects_liti (l a : string) :
  (forall rest, strip_prefix_i l (a ++ rest) = None) -> rejects (LitI l) a.
Proof. intros H A rest g k. cbn [run]. now rewrite H. Qed.

Lemma firstly_liti (l a : string) :
  (forall rest, strip_prefix_i l (a ++ rest) = Some rest) -> firstly (LitI l) a.
Proof. intros H A rest g k y Hk. cbn [run]. now rewrite H. Qed.

Lemma rejects_cat (r1 r2 : regex) (a : string) :
  rejects r1 a -> rejects (Cat r1 r2) a.
Proof. intros H A rest g k. cbn [run]. apply H. Qed.

(** Two characters against a pattern of alternatives. *)
Ltac two_chars :=
  first
    [ apply firstly_alt_l; two_chars
    | apply firstly_alt_r; [reject|two_chars]
    | apply (firstly_cat _ _ (String _ "") (String _ ""));
      [ first [apply firstly_cls; reflexivity | apply (firstly_lit (String _ ""))]
      | apply firstly_cls; reflexivity ] ]
with reject :=
  first
    [ apply rejects_cat; reject
    | apply rejects_cls; reflexivity
    | apply rejects_lit; intros; reflexivity ].

Lemma firstly_d (n : nat) : 1 <= n <= 31 -> firstly Datetime.re_d (Py.pad2 n).
Proof.
  intros Hn. unfold Datetime.re_d, Datetime.digit_in, Datetime.digit.
  cbn [alts].
  do 32 (destruct n as [|n]; [try lia; vm_compute (Py.pad2 _); try two_chars|]).
  lia.
Qed.

Lemma firstly_H (n : nat) : n <= 23 -> firstly Datetime.re_H (Py.pad2 n).
Proof.
  intros Hn. unfold Datetime.re_H, Datetime.digit_in, Datetime.digit.
  cbn [alts].
  do 24 (destruct n as [|n]; [vm_compute (Py.pad2 _); two_chars|]).
  lia.
Qed.

Lemma firstly_M (n : nat) : n <= 59 -> firstly Datetime.re_M (Py.pad2 n).
Proof.
  intros Hn. unfold Datetime.re_M, Datetime.digit_in, Datetime.digit.
  cbn [alts].
  do 60 (destruct n as [|n]; [vm_compute (Py.pad2 _); two_chars|]).
  lia.
Qed.

Lemma firstly_S (n : nat) : n <= 59 -> firstly Datetime.re_S (Py.pad2 n).
Proof.
  intros Hn. unfold Datetime.re_S, Datetime.digit_in, Datetime.digit.
  cbn [alts].
  do 60 (destruct n as [|n]; [vm_compute (Py.pad2 _); two_chars|]).
  lia.
Qed.

Lemma firstly_Y (n : nat) : firstly Datetime.re_Y (pad4 n).
Proof.
  unfold Datetime.re_Y, Datetime.digit, pad4. cbn [seq].
  apply (firstly_cat _ _ (String _ "") (String _ (String _ (String _ "")))).
  { apply firstly_cls, isdigit_digit_char. }
  apply (firstly_cat _ _ (String _ "") (String _ (String _ ""))).
  { apply firstly_cls, isdigit_digit_char. }
  apply (firstly_cat _ _ (String _ "") (String _ "")).
  { apply firstly_cls, isdigit_digit_char. }
  apply firstly_cls, isdigit_digit_char.
Qed.

Ltac month_name :=
  first
    [ apply firstly_alt_l; apply firstly_liti; intros; reflexivity
    | apply firstly_liti; intros; reflexivity
    | apply firstly_alt_r; [apply rejects_liti; intros; reflexivity | month_name] ].

Lemma firstly_b (m : nat) :
  1 <= m <= 12 -> firstly Datetime.re_b (nth (m - 1) month_names "").
Proof.
  intros Hm. unfold Datetime.re_b, Datetime.month_abbr. cbn [alts map tl].
  do 13 (destruct m as [|m]; [try lia; cbn [nth Nat.sub month_names]; try month_name|]).
  lia.
Qed.

Lemma month_index (m : nat) :
  1 <= m <= 12 ->
  S (Datetime.index_of (Py.lower (nth (m - 1) month_names "")) Datetime.month_abbr) = m.
Proof.
  intros Hm.
  do 13 (destruct m as [|m]; [try lia; try reflexivity|]).
  lia.
Qed.

Lemma below_10000 (n : nat) : (n <=? 9999) = true -> n < 1000 * 10.
Proof.
  intros Hn. apply Nat.leb_le in Hn.
  apply (Nat.le_lt_trans _ _ _ Hn).
  apply Nat.ltb_lt. vm_compute. reflexivity.
Qed.

Lemma int_pad4 (n : nat) : (n <=? 9999) = true -> Py.int (pad4 n) = n.
Proof.
  intros Hn. apply below_10000 in Hn. unfold Py.int, pad4. cbn [Py.int_acc].
  rewrite !isdigit_digit_char, !code_digit_char.
  assert (H3 : n / 1000 < 10) by (now apply Nat.Div0.div_lt_upper_bound).
  rewrite (Nat.mod_small (n / 1000) 10) by exact H3.
  replace (n / 1000) with (n / 10 / 10 / 10) in * by (now rewrite !Nat.Div0.div_div).
  replace (n / 100) with (n / 10 / 10) by (now rewrite Nat.Div0.div_div).
  pose proof (Nat.div_mod_eq n 10).
  pose proof (Nat.div_mod_eq (n / 10) 10).
  pose proof (Nat.div_mod_eq (n / 10 / 10) 10).
  lia.
Qed.

Lemma step_grp_lit (name : string) (r : regex) (l : string) (r' : regex)
      (a rest : string) (A : Type) (g : groups)
      (k : string -> groups -> option A) (y : A) :
  firstly r a ->
  run A r' rest ((name, a) :: g) k = Some y ->
  run A (Cat (Grp name r) (Cat (Lit l) r')) (a ++ l ++ rest) g k = Some y.
Proof.
  intros Hr Hk. cbn [run]. apply Hr.
  now rewrite take_append, strip_prefix_append.
Qed.

Lemma valid_spec (d : Datetime.t) :
  Datetime.valid d = true ->
  (Datetime.year d <=? 9999) = true /\
  1 <= Datetime.month d <= 12 /\
  1 <= Datetime.day d <= 31 /\
  Datetime.hour d <= 23 /\ Datetime.minute d <= 59 /\ Datetime.second d <= 59.
Proof.
  unfold Datetime.valid. intros Hv. rewrite !andb_true_iff in Hv.
  destruct Hv as ((((((((Hy1 & Hy) & Hm1) & Hm) & Hd1) & Hd) & HH) & HM) & HS).
  apply Nat.leb_le in Hm1, Hm, Hd1, Hd, HH, HM, HS.
  split; [exact Hy|]. split; [lia|]. split; [|lia].
  split; [exact Hd1|].
  unfold Datetime.days_in_month in Hd.
  destruct (Datetime.month d) as [|[|[|[|[|[|[|[|[|[|[|[|[|]]]]]]]]]]]]];
    try destruct (Datetime.is_leap _); lia.
Qed.

Lemma strptime_clf_time (d : Datetime.t) :
  Datetime.valid d = true -> Datetime.strptime (clf_time d) = Some d.
Proof.
  intros Hv. destruct (valid_spec d Hv) as (Hy & Hm & Hd & HH & HM & HS).
  unfold Datetime.strptime.
  assert (E : rmatch Datetime.format_regex (clf_time d)
              = Some ([("S", Py.pad2 (Datetime.second d));
                       ("M", Py.pad2 (Datetime.minute d));
                       ("H", Py.pad2 (Datetime.hour d));
                       ("Y", pad4 (Datetime.year d));
                       ("b", nth (Datetime.month d - 1) month_names "");
                       ("d", Py.pad2 (Datetime.day d))], "")).
  { unfold rmatch, Datetime.format_regex, clf_time. cbn [seq].
    rewrite <- (append_empty (Py.pad2 (Datetime.second d))).
    apply step_grp_lit; [now apply firstly_d|].
    apply step_grp_lit; [now apply firstly_b|].
    apply step_grp_lit; [now apply firstly_Y|].
    apply step_grp_lit; [now apply firstly_H|].
    apply step_grp_lit; [now apply firstly_M|].
    apply firstly_grp; [now apply firstly_S|]. reflexivity. }
  rewrite E. cbn [group String.eqb Ascii.eqb Bool.eqb].
  rewrite !int_pad2, int_pad4, month_index by (assumption || lia).
  destruct d as [y m dd H M S]. cbn [Datetime.year Datetime.month Datetime.day
    Datetime.hour Datetime.minute Datetime.second] in *.
  now rewrite Hv.
Qed.

Lemma all_append (p : ascii -> bool) (a b : string) :
  all p (a ++ b) = all p a && all p b.
Proof. induction a as [|c a IH]; simpl; [|rewrite IH, andb_assoc]; reflexivity. Qed.

Lemma nonspace_digit_char (n : nat) : nonspace (Py.digit_char n) = true.
Proof.
  unfold nonspace, Py.isspace, Py.between. rewrite code_digit_char.
  pose proof (Nat.mod_upper_bound n 10).
  apply negb_true_iff, orb_false_iff.
  split; apply andb_false_iff; right; apply Nat.leb_gt; lia.
Qed.

Lemma nonspace_clf_time (d : Datetime.t) :
  1 <= Datetime.month d <= 12 -> field nonspace 1 (clf_time d) = true.
Proof.
  intros Hm. apply field_spec. unfold clf_time, Py.pad2, pad4. split.
  - cbn [append String.length]. lia.
  - rewrite !all_append. cbn [all]. rewrite !nonspace_digit_char.
    assert (Hmon : all nonspace (nth (Datetime.month d - 1) month_names "") = true).
    { destruct (Datetime.month d) as [|m]; [lia|].
      do 12 (destruct m as [|m]; [reflexivity|]). lia. }
    rewrite Hmon. reflexivity.
Qed.

Lemma split_cons (c : ascii) (s : string) :
  Py.split (String c s)
  = if Py.isspace c then Py.split s
    else match s with
         | EmptyString => [String c EmptyString]
         | String c' _ =>
             if Py.isspace c' then String c EmptyString :: Py.split s
             else match Py.split s with
                  | t :: ts => String c t :: ts
                  | [] => [String c EmptyString]
                  end
         end.
Proof. reflexivity. Qed.

Lemma split_head_cons (t : string) (c : ascii) (rest : string) :
  Py.isspace c = false -> all nonspace t = true ->
  Py.split (String c (t ++ String " " rest)) = String c t :: Py.split rest.
Proof.
  revert c. induction t as [|c' t IH]; intros c Hc Hall.
  - cbn [append]. rewrite split_cons, Hc.
    change (Py.isspace " ") with true. cbv iota.
    now rewrite (split_cons " " rest).
  - cbn [all] in Hall. apply andb_true_iff in Hall. destruct Hall as [Hc' Hall].
    unfold nonspace in Hc'. apply negb_true_iff in Hc'.
    cbn [append]. rewrite split_cons, Hc, Hc'.
    now rewrite (IH c' Hc' Hall).
Qed.

Lemma split_head (t rest : string) :
  field nonspace 1 t = true ->
  Py.split (t ++ String " " rest) = t :: Py.split rest.
Proof.
  intros Hf. apply field_spec in Hf. destruct Hf as [Hlen Hall].
  destruct t as [|c t]; [simpl in Hlen; lia|].
  cbn [all] in Hall. apply andb_true_iff in Hall. destruct Hall as [Hc Hall].
  unfold nonspace in Hc. apply negb_true_iff in Hc.
  now apply split_head_cons.
Qed.

End Timestamps.

(** X13. The hour bucket of a Combined Log Format timestamp is its hour.
    For every valid date and time, [strptime] reads the text
    [dd/Mon/yyyy:HH:MM:SS] back into exactly that date and time, and the
    timestamp made of this text, a space and any zone is attributed to the
    bucket [HH:00]. *)
Theorem clf_timestamp_hour (d : Datetime.t) :
  Datetime.valid d = true ->
  Datetime.strptime (clf_time d) = Some d /\
  forall zone,
    hour_of (clf_time d ++ String " " zone)
    = Some (Py.pad2 (Datetime.hour d) ++ ":00")%string.
Proof.
  intros Hv. pose proof (Timestamps.strptime_clf_time d Hv) as Hs.
  split; [exact Hs|]. intros zone. unfold hour_of.
  destruct (Timestamps.valid_spec d Hv) as (_ & Hm & _).
  rewrite (Timestamps.split_head _ zone (Timestamps.nonspace_clf_time d Hm)), Hs. reflexivity.
Qed.

(** The first timestamp of the sample log. *)
Lemma clf_timestamp_hour_sample :
  hour_of "25/Dec/2023:10:15:32 +0000" = Some "10:00".
Proof.
  apply (proj2 (clf_timestamp_hour (Datetime.mk 2023 12 25 10 15 32)
                  ltac:(vm_compute; reflexivity)) "+0000").
Defined.

(** ** What the scan reports *)

(** X14. The scan reports a category for a URL exactly when the URL was
    counted and holds, in any case, one of the patterns of the category:
    every finding of a run is such an attack finding (none is about a user
    agent), and every counted URL with a pattern of a category in it has its
    finding. *)
Theorem scan_reports_exactly (lines : list string) (f : finding) :
  In f (_check_security_issues (ingest_lines init_stats lines)) <->
  exists name patterns pattern url,
    f = Attack name url /\
    In (name, patterns) attack_patterns /\
    In pattern patterns /\
    In url (Counter.keys (top_pages (ingest_lines init_stats lines))) /\
    Py.contains pattern (Py.lower url) = true.
Proof.
  unfold _check_security_issues.
  rewrite check_agents_reports_nothing, app_nil_l.
  unfold check_attacks. rewrite in_flat_map. split.
  - intros ([name patterns] & Hcat & Hin).
    rewrite in_flat_map in Hin. destruct Hin as (url & Hurl & Hin).
    unfold check_url in Hin. cbn [fst snd] in Hin.
    rewrite in_flat_map in Hin. destruct Hin as (pattern & Hp & Hin).
    destruct (Py.contains pattern (Py.lower url)) eqn:Hc; [|destruct Hin].
    destruct Hin as [<-|[]].
    exists name, patterns, pattern, url. auto.
  - intros (name & patterns & pattern & url & -> & Hcat & Hp & Hurl & Hc).
    exists (name, patterns). split; [exact Hcat|].
    rewrite in_flat_map. exists url. split; [exact Hurl|].
    unfold check_url. cbn [fst snd]. rewrite in_flat_map.
    exists pattern. split; [exact Hp|]. rewrite Hc. now left.
Qed.

(** The XSS finding of the sample log. *)
Lemma scan_reports_exactly_sample :
  In (Attack "XSS" "/search?q=<script>alert('xss')</script>")
     (_check_security_issues (ingest_lines init_stats (readlines sample_log))).
Proof.
  apply (proj2 (scan_reports_exactly (readlines sample_log) _)).
  exists "XSS", ["<script>"; "javascript:"; "onload="; "onerror="],
         "<script>", "/search?q=<script>alert('xss')</script>".
  split; [reflexivity|].
  split; [simpl; tauto|].
  split; [simpl; tauto|].
  split; [vm_compute; do 8 right; left; reflexivity|].
  vm_compute. reflexivity.
Defined.
